(** * Task-tracker analysis: loader/cleaner and metrics engine

    A shallow embedding of [scripts/analysis.py] and of the control flow of
    [analyze_tasks.py], with the properties of the aggregation logic stated
    and proved over it.

    Modelling conventions.
    - A DataFrame is the list of its rows, in row order; a column is the
      [map] of a field over the rows; a boolean mask is a [filter].
    - A float64 cell that may be missing is an [option]: [None] is NaN (NaT
      for an instant).  Finite float64 values are exact rationals ([Q]):
      the rounding of IEEE arithmetic is not modelled.
    - A scalar computed by numpy is a [float]: NaN, an infinity, or a
      finite rational.
    - A Python exception is the [Raise] branch of [result].
    - Console output is not modelled. *)

From Stdlib Require Import ZArith QArith Qround Lqa Lia Bool List String.
From Stdlib Require Import Sorting.Mergesort Sorting.Sorted Sorting.Permutation.
From Stdlib Require Import Orders Morphisms Setoid.
Import ListNotations.

Local Open Scope Z_scope.

(** ** Exceptions *)

Inductive exn : Type :=
| FileNotFoundError
| KeyError
| OutOfBoundsDatetime
| ZeroDivisionError
| OtherException.

Inductive result (A : Type) : Type :=
| Ok (a : A)
| Raise (e : exn).

Arguments Ok {A} a.
Arguments Raise {A} e.

Definition bind {A B : Type} (c : result A) (k : A -> result B) : result B :=
  match c with
  | Ok a => k a
  | Raise e => Raise e
  end.

Notation "x <- c ;; k" := (bind c (fun x => k))
  (at level 61, c at next level, right associativity).

(** ** Scalars *)

(** A float64 scalar.  [Inf false] is +inf, [Inf true] is -inf. *)
Inductive float : Type :=
| NaN
| Inf (negative : bool)
| Fin (q : Q).

(** [x * k] for a float64 [x] and a positive Python int [k]. *)
Definition fmul (x : float) (k : Z) : float :=
  match x with
  | NaN => NaN
  | Inf s => Inf s
  | Fin q => Fin (q * inject_Z k)
  end.

(** [a / b] on Python ints: true division, raising on a zero divisor. *)
Definition py_truediv (a b : Z) : result float :=
  if b =? 0 then Raise ZeroDivisionError
  else Ok (Fin (inject_Z a / inject_Z b)).

(** [a / b] where [a] is a numpy int64 scalar: a zero divisor gives NaN or
    an infinity (with a warning), never an exception. *)
Definition np_truediv (a b : Z) : float :=
  if b =? 0 then
    (if a =? 0 then NaN else Inf (a <? 0))
  else Fin (inject_Z a / inject_Z b).

(** IEEE comparison [x <= y]: false as soon as one side is NaN. *)
Definition fleb (x y : float) : bool :=
  match x, y with
  | NaN, _ | _, NaN => false
  | Inf true, _ => true
  | _, Inf false => true
  | Inf false, _ => false
  | _, Inf true => false
  | Fin a, Fin b => Qle_bool a b
  end.

Definition fle (x y : float) : Prop := fleb x y = true.

(** Numerical equality of floats ([Q] has several fractions for a number). *)
Definition feq (x y : float) : Prop :=
  match x, y with
  | Fin a, Fin b => (a == b)%Q
  | Inf s, Inf t => s = t
  | _, _ => False
  end.

Definition is_nan (x : float) : Prop := x = NaN.

(** [len] of a table or of a column. *)
Definition len {A : Type} (l : list A) : Z := Z.of_nat (List.length l).

(** ** Data model *)

Module Issue.
(** A row of [issues.csv].  The creation timestamp and the category are
    always present; the resolution timestamp and code may be missing. *)
Record t : Type := mk {
  created : Z;               (* epoch milliseconds *)
  resolved : option Z;       (* epoch milliseconds, empty when open *)
  category : string;
  resolution : option Z      (* foreign key into the lookup table *)
}.
End Issue.

Module Resolution.
(** A row of [resolutions.csv]. *)
Record t : Type := mk {
  id : Z;
  key : string
}.
End Resolution.

Module Row.
(** A row of the cleaned table: the issue and its derived columns. *)
Record t : Type := mk {
  created : Z;
  resolved : option Z;
  category : string;
  resolution : option Z;
  created_dt : Z;                   (* nanoseconds since the epoch *)
  resolved_dt : option Z;           (* [None] is NaT *)
  days_to_resolve : option Q;       (* [None] is NaN *)
  resolution_name : option string
}.
End Row.

Definition DataFrame : Type := list Row.t.

(** What [pd.read_csv] finds at a path. *)
Inductive table : Type :=
| IssuesTable (rows : list Issue.t)
| ResolutionsTable (rows : list Resolution.t).

(** The files that exist, by path. *)
Definition filesystem : Type := string -> option table.

(** ** Loader / cleaner *)

Definition read_csv (fs : filesystem) (path : string) : result table :=
  match fs path with
  | Some t => Ok t
  | None => Raise FileNotFoundError
  end.

(** [issues['created']] and the other issue columns exist only in a table
    of issues. *)
Definition issue_columns (t : table) : result (list Issue.t) :=
  match t with
  | IssuesTable rows => Ok rows
  | ResolutionsTable _ => Raise KeyError
  end.

Definition resolution_columns (t : table) : result (list Resolution.t) :=
  match t with
  | ResolutionsTable rows => Ok rows
  | IssuesTable _ => Raise KeyError
  end.

(** Bounds of [pd.Timestamp], in nanoseconds. *)
Definition timestamp_max : Z := 9223372036854775807.
Definition timestamp_min : Z := - 9223372036854775807.

(** [pd.to_datetime(ms / 1000, unit='s')] on one value: the instant in
    nanoseconds, when it is representable. *)
Definition to_datetime (ms : Z) : option Z :=
  let ns := ms * 1000000 in
  if (timestamp_min <=? ns) && (ns <=? timestamp_max) then Some ns else None.

(** Without [errors='coerce'] an unrepresentable instant raises. *)
Definition to_datetime_raise (ms : Z) : result Z :=
  match to_datetime ms with
  | Some ns => Ok ns
  | None => Raise OutOfBoundsDatetime
  end.

(** With [errors='coerce'] a missing or unrepresentable instant is NaT. *)
Definition to_datetime_coerce (ms : option Z) : option Z :=
  match ms with
  | Some v => to_datetime v
  | None => None
  end.

Definition ms_per_day : Z := 1000 * 60 * 60 * 24.

(** [(resolved - created) / (1000 * 60 * 60 * 24)], NaN when open. *)
Definition elapsed_days (created : Z) (resolved : option Z) : option Q :=
  match resolved with
  | Some r => Some (inject_Z (r - created) / inject_Z ms_per_day)%Q
  | None => None
  end.

(** The derived columns of one issue, before the join. *)
Definition derive (i : Issue.t) (name : option string) : result Row.t :=
  dt <- to_datetime_raise (Issue.created i) ;;
  Ok (Row.mk (Issue.created i) (Issue.resolved i) (Issue.category i)
        (Issue.resolution i) dt
        (to_datetime_coerce (Issue.resolved i))
        (elapsed_days (Issue.created i) (Issue.resolved i))
        name).

Fixpoint mapM {A B : Type} (f : A -> result B) (l : list A) : result (list B) :=
  match l with
  | [] => Ok []
  | x :: tl => y <- f x ;; ys <- mapM f tl ;; Ok (y :: ys)
  end.

(** The lookup rows whose [id] equals the issue's [resolution]. *)
Definition matches (code : option Z) (resolutions : list Resolution.t)
  : list Resolution.t :=
  match code with
  | Some c => filter (fun r => Resolution.id r =? c) resolutions
  | None => []
  end.

(** [merge(..., on='resolution', how='left')] for one left row: one output
    row per matching lookup row, and one row with a missing name when there
    is none. *)
Definition merge_left_row (resolutions : list Resolution.t) (r : Row.t)
  : list Row.t :=
  let with_name (n : option string) :=
    Row.mk (Row.created r) (Row.resolved r) (Row.category r)
      (Row.resolution r) (Row.created_dt r) (Row.resolved_dt r)
      (Row.days_to_resolve r) n in
  match matches (Row.resolution r) resolutions with
  | [] => [with_name None]
  | ms => map (fun m => with_name (Some (Resolution.key m))) ms
  end.

Definition merge_left (left : DataFrame) (resolutions : list Resolution.t)
  : DataFrame :=
  flat_map (merge_left_row resolutions) left.

Definition epoch_floor : Z := 1000000000000.

Definition load_data (fs : filesystem) (issues_csv resolutions_csv : string)
  : result DataFrame :=
  issues_t <- read_csv fs issues_csv ;;
  resolutions_t <- read_csv fs resolutions_csv ;;
  issues <- issue_columns issues_t ;;
  let issues_clean := filter (fun i => epoch_floor <? Issue.created i) issues in
  derived <- mapM (fun i => derive i None) issues_clean ;;
  resolutions <- resolution_columns resolutions_t ;;
  Ok (merge_left derived resolutions).

(** ** Sorting and column reductions *)

Section Sorted.
Context {A : Type} (leb : A -> A -> bool).

Fixpoint insert (x : A) (l : list A) : list A :=
  match l with
  | [] => [x]
  | y :: tl => if leb x y then x :: l else y :: insert x tl
  end.

(** [sorted(l)], ascending. *)
Fixpoint sorted (l : list A) : list A :=
  match l with
  | [] => []
  | x :: tl => insert x (sorted tl)
  end.
End Sorted.

(** [Series.unique()]: the distinct values, in order of first appearance. *)
Fixpoint unique (l : list string) : list string :=
  match l with
  | [] => []
  | x :: tl => x :: filter (fun y => negb (x =? y)%string) (unique tl)
  end.

Definition notna {A : Type} (x : option A) : bool :=
  match x with
  | Some _ => true
  | None => false
  end.

(** Element-wise comparisons of a cell with an int; a NaN cell compares
    false. *)
Definition cell_ge (x : option Q) (t : Z) : bool :=
  match x with
  | Some q => Qle_bool (inject_Z t) q
  | None => false
  end.

Definition cell_le (x : option Q) (t : Z) : bool :=
  match x with
  | Some q => Qle_bool q (inject_Z t)
  | None => false
  end.

Definition cell_gt (x : option Q) (t : Z) : bool :=
  match x with
  | Some q => negb (Qle_bool q (inject_Z t))
  | None => false
  end.

(** [.sum()] of a boolean column: how many cells are true (a numpy int64). *)
Definition count_true (mask : list bool) : Z :=
  len (filter (fun b => b) mask).

(** The reductions of pandas skip NaN cells. *)
Definition dropna (s : list (option Q)) : list Q :=
  flat_map (fun x => match x with Some q => [q] | None => [] end) s.

Definition Qsum (v : list Q) : Q := fold_right Qplus 0%Q v.

Definition Qmin2 (a b : Q) : Q := if Qle_bool a b then a else b.
Definition Qmax2 (a b : Q) : Q := if Qle_bool a b then b else a.

Definition mean_of (v : list Q) : Q := (Qsum v / inject_Z (len v))%Q.

(** [Series.mean()] *)
Definition mean (s : list (option Q)) : float :=
  match dropna s with
  | [] => NaN
  | v => Fin (mean_of v)
  end.

(** [Series.min()] and [Series.max()] *)
Definition series_min (s : list (option Q)) : float :=
  match dropna s with
  | [] => NaN
  | x :: tl => Fin (fold_left Qmin2 tl x)
  end.

Definition series_max (s : list (option Q)) : float :=
  match dropna s with
  | [] => NaN
  | x :: tl => Fin (fold_left Qmax2 tl x)
  end.

(** The middle of a sorted column: the mean of the two middle values when
    their number is even. *)
Definition median_sorted (v : list Q) : Q :=
  let n := List.length v in
  if Nat.even n
  then ((nth (n / 2 - 1) v 0 + nth (n / 2) v 0) / 2)%Q
  else nth (n / 2)%nat v 0%Q.

(** [Series.median()] *)
Definition median (s : list (option Q)) : float :=
  match dropna s with
  | [] => NaN
  | v => Fin (median_sorted (sorted Qle_bool v))
  end.

(** The [q]-quantile of a sorted column by linear interpolation between the
    two order statistics around position [q * (n - 1)]. *)
Definition quantile_sorted (v : list Q) (q : Q) : Q :=
  let n := len v in
  let pos := (q * inject_Z (n - 1))%Q in
  let lo := Qfloor pos in
  let hi := Z.min (lo + 1) (n - 1) in
  let frac := (pos - inject_Z lo)%Q in
  let a := nth (Z.to_nat lo) v 0%Q in
  let b := nth (Z.to_nat hi) v 0%Q in
  (a + (b - a) * frac)%Q.

(** [Series.quantile(q)] *)
Definition quantile (s : list (option Q)) (q : Q) : float :=
  match dropna s with
  | [] => NaN
  | v => Fin (quantile_sorted (sorted Qle_bool v) q)
  end.

(** A standard deviation is the square root of a rational, which is kept
    under the root sign. *)
Inductive root : Type :=
| RootNaN
| Sqrt (radicand : Q).

(** [Series.std()]: the sample standard deviation (one degree of freedom
    removed), NaN below two values. *)
Definition std (s : list (option Q)) : root :=
  match dropna s with
  | [] => RootNaN
  | [_] => RootNaN
  | v =>
      let m := mean_of v in
      Sqrt (Qsum (map (fun x => (x - m) * (x - m)) v) / inject_Z (len v - 1))%Q
  end.

(** ** Metrics engine *)

Module Metrics.
(** The dictionary returned by [calculate_metrics], key by key. *)
Record t : Type := mk {
  total : Z;
  resolved : Z;
  open : Z;
  resolution_rate : float;
  avg_days : float;
  median_days : float;
  min_days : float;
  max_days : float;
  std_days : root;
  p25_days : float;
  p75_days : float;
  p90_days : float;
  p95_days : float;
  sla_1day : float;
  sla_3day : float;
  sla_7day : float;
  sla_14day : float;
  sla_30day : float;
  long_30pct : float;
  long_90pct : float
}.
End Metrics.

(** [df[(df['resolved_dt'].notna()) & (df['days_to_resolve'] >= 0)]] *)
Definition resolved_subset (df : DataFrame) : DataFrame :=
  filter (fun r => notna (Row.resolved_dt r) && cell_ge (Row.days_to_resolve r) 0)
    df.

(** The column [df['days_to_resolve']]. *)
Definition days_column (df : DataFrame) : list (option Q) :=
  map Row.days_to_resolve df.

Definition calculate_metrics (df : DataFrame) : result Metrics.t :=
  let resolved := resolved_subset df in
  let total := len df in
  let days := days_column resolved in
  rate <- py_truediv (len resolved) total ;;
  Ok {|
    Metrics.total := total;
    Metrics.resolved := len resolved;
    Metrics.open := total - len resolved;
    Metrics.resolution_rate := fmul rate 100;

    Metrics.avg_days := mean days;
    Metrics.median_days := median days;
    Metrics.min_days := series_min days;
    Metrics.max_days := series_max days;
    Metrics.std_days := std days;

    Metrics.p25_days := quantile days (25 # 100);
    Metrics.p75_days := quantile days (75 # 100);
    Metrics.p90_days := quantile days (90 # 100);
    Metrics.p95_days := quantile days (95 # 100);

    Metrics.sla_1day :=
      fmul (np_truediv (count_true (map (fun d => cell_le d 1) days)) (len resolved)) 100;
    Metrics.sla_3day :=
      fmul (np_truediv (count_true (map (fun d => cell_le d 3) days)) (len resolved)) 100;
    Metrics.sla_7day :=
      fmul (np_truediv (count_true (map (fun d => cell_le d 7) days)) (len resolved)) 100;
    Metrics.sla_14day :=
      fmul (np_truediv (count_true (map (fun d => cell_le d 14) days)) (len resolved)) 100;
    Metrics.sla_30day :=
      fmul (np_truediv (count_true (map (fun d => cell_le d 30) days)) (len resolved)) 100;

    Metrics.long_30pct :=
      fmul (np_truediv (count_true (map (fun d => cell_gt d 30) days)) (len resolved)) 100;
    Metrics.long_90pct :=
      fmul (np_truediv (count_true (map (fun d => cell_gt d 90) days)) (len resolved)) 100
  |}.

Module CategoryMetrics.
(** One row of the table returned by [get_metrics_by_category]. *)
Record t : Type := mk {
  category : string;
  total : Z;
  resolved : Z;
  resolution_rate : float;
  avg_days : float;
  median_days : float;
  p95_days : float
}.
End CategoryMetrics.

(** The body of the loop of [get_metrics_by_category]. *)
Definition category_metrics (df : DataFrame) (category : string)
  : result CategoryMetrics.t :=
  let cat_all := filter (fun r => (Row.category r =? category)%string) df in
  let cat_resolved := filter (fun r => notna (Row.resolved_dt r)) cat_all in
  let cat_with_time :=
    filter (fun r => cell_ge (Row.days_to_resolve r) 0) cat_resolved in
  let days := days_column cat_with_time in
  rate <- (if 0 <? len cat_all
           then (x <- py_truediv (len cat_resolved) (len cat_all) ;; Ok (fmul x 100))
           else Ok (Fin 0)) ;;
  Ok {|
    CategoryMetrics.category := category;
    CategoryMetrics.total := len cat_all;
    CategoryMetrics.resolved := len cat_resolved;
    CategoryMetrics.resolution_rate := rate;
    CategoryMetrics.avg_days :=
      if 0 <? len cat_with_time then mean days else Fin 0;
    CategoryMetrics.median_days :=
      if 0 <? len cat_with_time then median days else Fin 0;
    CategoryMetrics.p95_days :=
      if 0 <? len cat_with_time then quantile days (95 # 100) else Fin 0
  |}.

(** The loop runs over [sorted(df['category'].unique())].  Python orders
    strings by code point, which is the byte order of their UTF-8 encoding,
    the order of [String.leb]. *)
Definition get_metrics_by_category (df : DataFrame)
  : result (list CategoryMetrics.t) :=
  mapM (category_metrics df) (sorted String.leb (unique (map Row.category df))).

(** ** Top-level flow *)

(** [os.makedirs(output_dir, exist_ok=True)], then the path is returned. *)
Definition ensure_output_dir (output_dir : string) : string := output_dir.

Section Main.
(** Chart rendering is an external collaborator: all that the flow sees
    of it is whether it raised.  [print_metrics_report] and
    [print_category_report], called after each of the two computations,
    only write to the console. *)
Variable save_all_visualizations :
  DataFrame -> string -> list string -> bool -> result unit.

Definition main (fs : filesystem) : result bool :=
  let output_dir := ensure_output_dir "outputs/visualizations" in
  match load_data fs "data/issues.csv" "data/resolutions.csv" with
  | Raise FileNotFoundError => Ok false
  | Raise e => Raise e
  | Ok df =>
      metrics <- calculate_metrics df ;;
      df_categories <- get_metrics_by_category df ;;
      match (_ <- save_all_visualizations df output_dir ["png"%string] true ;;
             save_all_visualizations df output_dir ["pdf"%string] false) with
      | Raise _ => Ok false
      | Ok _ => Ok true
      end
  end.
End Main.

(** ** Sample tables *)

Definition t0 : Z := 1700000000000.

(** An issue of category [cat] created at [t0] and resolved [days] days
    later (earlier when [days] is negative). *)
Definition issue_after (cat : string) (days : Z) : Issue.t :=
  Issue.mk t0 (Some (t0 + days * ms_per_day)) cat (Some 1).

Definition open_issue (cat : string) : Issue.t :=
  Issue.mk t0 None cat None.

Definition lookup_sample : list Resolution.t :=
  [Resolution.mk 1 "Fixed"; Resolution.mk 2 "Duplicate"].

(** A file system holding the two input files at the paths [main] uses. *)
Definition fs_with (issues : list Issue.t) : filesystem :=
  fun path =>
    if (path =? "data/issues.csv")%string then Some (IssuesTable issues)
    else if (path =? "data/resolutions.csv")%string
         then Some (ResolutionsTable lookup_sample)
         else None.

Definition fs_empty : filesystem := fun _ => None.

(** The cleaned table that the loader makes of a list of issues. *)
Definition loaded (issues : list Issue.t) : DataFrame :=
  match load_data (fs_with issues) "data/issues.csv" "data/resolutions.csv" with
  | Ok df => df
  | Raise _ => []
  end.

(** Five resolved issues, taking 1, 2, 3, 10 and 31 days. *)
Definition table_five : DataFrame :=
  loaded (map (issue_after "Bug") [1; 2; 3; 10; 31]).

(** One issue whose resolution is stamped a day before its creation. *)
Definition table_negative : DataFrame :=
  loaded [issue_after "Bug" (-1)].

(** Open issues only. *)
Definition table_open : DataFrame :=
  loaded [open_issue "Bug"; open_issue "Task"].

(** A mix of categories and states. *)
Definition table_mixed : DataFrame :=
  loaded [issue_after "Bug" 2; open_issue "Task"; issue_after "Task" 40;
          issue_after "Bug" (-3); issue_after "Feature" 5].

(** Raw issues, two of them at or below the validity floor. *)
Definition issues_with_sentinels : list Issue.t :=
  [issue_after "Bug" 2;
   Issue.mk 0 (Some 5) "Bug" None;
   Issue.mk epoch_floor None "Task" None;
   open_issue "Task"].

(** The elapsed days of the resolved subset, row by row, are the given
    whole numbers of days. *)
Definition elapsed_days_are (df : DataFrame) (ds : list Z) : Prop :=
  Forall2 (fun cell d => exists q, cell = Some q /\ (q == inject_Z d)%Q)
    (days_column (resolved_subset df)) ds.

(** The rows of one category. *)
Definition in_category (c : string) (df : DataFrame) : DataFrame :=
  filter (fun r => (Row.category r =? c)%string) df.

Definition sum_Z (l : list Z) : Z := fold_right Z.add 0 l.

(** ** Report columns *)


(** The row that the loop body appends for a category, when it has rows. *)
Definition category_row (df : DataFrame) (category : string) : CategoryMetrics.t :=
  let cat_all := in_category category df in
  let cat_resolved := filter (fun r => notna (Row.resolved_dt r)) cat_all in
  let cat_with_time :=
    filter (fun r => cell_ge (Row.days_to_resolve r) 0) cat_resolved in
  let days := days_column cat_with_time in
  {|
    CategoryMetrics.category := category;
    CategoryMetrics.total := len cat_all;
    CategoryMetrics.resolved := len cat_resolved;
    CategoryMetrics.resolution_rate :=
      Fin (inject_Z (len cat_resolved) / inject_Z (len cat_all) * inject_Z 100);
    CategoryMetrics.avg_days :=
      if 0 <? len cat_with_time then mean days else Fin 0;
    CategoryMetrics.median_days :=
      if 0 <? len cat_with_time then median days else Fin 0;
    CategoryMetrics.p95_days :=
      if 0 <? len cat_with_time then quantile days (95 # 100) else Fin 0
  |}.

(** A column whose order statistics grow with their rank. *)
Definition ranked (v : list Q) : Prop :=
  forall i j, (i <= j < List.length v)%nat -> (nth i v 0 <= nth j v 0)%Q.

(** ** Single-category analysis *)

Section AnalyzeSingleCategory.
(** Drawing the SLA chart of the category, titling it and saving it are
    matplotlib calls: one external step, which may raise. *)
Variable plot_and_save_sla_chart : DataFrame -> string -> string -> result unit.

(** [analyze_single_category]: no [try] around the load here, and the
    metrics are computed only past the emptiness test. *)
Definition analyze_single_category
    (fs : filesystem) (category_name output_dir : string) : result unit :=
  df <- load_data fs "data/issues.csv" "data/resolutions.csv" ;;
  let df_cat := filter (fun r => (Row.category r =? category_name)%string) df in
  if len df_cat =? 0 then Ok tt
  else
    metrics <- calculate_metrics df_cat ;;
    plot_and_save_sla_chart df_cat category_name output_dir.
End AnalyzeSingleCategory.

(** ** Chart data *)

(** The numbers that [plot_sla_chart] draws: one percentage and one count
    per threshold. *)
Definition thresholds : list Z := [1; 3; 7; 14; 30].

Definition plot_sla_chart_percentages (df : DataFrame) : list float :=
  let resolved := resolved_subset df in
  map (fun t =>
         fmul (np_truediv
                 (count_true (map (fun d => cell_le d t) (days_column resolved)))
                 (len resolved)) 100)
    thresholds.

Definition plot_sla_chart_counts (df : DataFrame) : list Z :=
  let resolved := resolved_subset df in
  map (fun t => count_true (map (fun d => cell_le d t) (days_column resolved)))
    thresholds.

(** [df.groupby('category')]: one group per distinct category, by ascending
    key. *)
Definition groupby_category (df : DataFrame) : list (string * DataFrame) :=
  map (fun k => (k, filter (fun r => (Row.category r =? k)%string) df))
    (sorted String.leb (unique (map Row.category df))).

(** The two series that [plot_category_distribution] draws. *)
Definition category_counts (df : DataFrame) : list (string * Z) :=
  map (fun kg => (fst kg, len (snd kg))) (groupby_category df).

Definition resolution_rates (df : DataFrame) : list (string * float) :=
  map (fun kg =>
         (fst kg,
          fmul (np_truediv
                  (count_true (map (fun r => notna (Row.resolved_dt r)) (snd kg)))
                  (len (snd kg))) 100))
    (groupby_category df).

(** The edges [0, 2/24, 12/24, 3, 7, 15] of the speed classes. *)
Definition bins_simple : list Q := [0; 2 / 24; 12 / 24; 3; 7; 15]%Q.

(** [bins.searchsorted(x, side='left')]: how many edges are below [x]. *)
Definition searchsorted_left (bins : list Q) (x : Q) : nat :=
  List.length (filter (fun b => negb (Qle_bool x b)) bins).

(** [pd.cut(x, bins, labels=..., include_lowest=True)] on one cell: the
    rank of its label, or [None] (NaN) outside the edges.  Classes are
    closed on the right; the lowest edge belongs to the first class. *)
Definition cut (bins : list Q) (cell : option Q) : option nat :=
  match cell with
  | None => None
  | Some x =>
      let ids := if Qeq_bool x (hd 0%Q bins) then 1%nat
                 else searchsorted_left bins x in
      if (ids =? 0)%nat || (ids =? List.length bins)%nat then None
      else Some (ids - 1)%nat
  end.

(** [resolved_all[resolved_all['days_to_resolve'] <= 15]] *)
Definition resolved_vis (df : DataFrame) : DataFrame :=
  filter (fun r => cell_le (Row.days_to_resolve r) 15) (resolved_subset df).

Definition option_nat_eqb (a : option nat) (k : nat) : bool :=
  match a with
  | Some i => (i =? k)%nat
  | None => false
  end.

(** [value_counts().sort_index()] of the speed classes: one count per
    label, in label order, zero counts included. *)
Definition counts_simple (df : DataFrame) : list Z :=
  map (fun k =>
         len (filter (fun r => option_nat_eqb (cut bins_simple (Row.days_to_resolve r)) k)
                (resolved_vis df)))
    (seq 0 (List.length bins_simple - 1)).

(** ** Vocabulary of the statements *)

(** The issue that a cleaned row carries. *)
Definition issue_of (r : Row.t) : Issue.t :=
  Issue.mk (Row.created r) (Row.resolved r) (Row.category r) (Row.resolution r).

Definition above_floor (i : Issue.t) : bool := epoch_floor <? Issue.created i.

(** A float that is a finite number within the given bounds. *)
Definition fin_between (lo hi : Q) (x : float) : Prop :=
  exists q, x = Fin q /\ (lo <= q)%Q /\ (q <= hi)%Q.

(** What the columns derived before the join hold, row by row. *)
Definition derived_ok (r : Row.t) : Prop :=
  to_datetime (Row.created r) = Some (Row.created_dt r) /\
  Row.resolved_dt r = to_datetime_coerce (Row.resolved r) /\
  Row.days_to_resolve r = elapsed_days (Row.created r) (Row.resolved r).


(** A renderer that draws nothing and never fails. *)
Definition render_ok : DataFrame -> string -> list string -> bool -> result unit :=
  fun _ _ _ _ => Ok tt.

(** Issues that are all at or below the validity floor. *)
Definition issues_all_sentinels : list Issue.t :=
  [Issue.mk 0 (Some 5) "Bug" None; Issue.mk epoch_floor None "Task" None].

(** ** Basic facts *)

Lemma len_nonneg {A : Type} (l : list A) : 0 <= len l.
Proof. unfold len. lia. Qed.

Lemma len_zero_iff {A : Type} (l : list A) : len l = 0 <-> l = [].
Proof.
  unfold len. destruct l as [|x tl]; simpl; split; intros H;
    try reflexivity; try discriminate; lia.
Qed.

Lemma len_cons {A : Type} (x : A) (l : list A) : len (x :: l) = 1 + len l.
Proof. unfold len. simpl List.length. lia. Qed.

Lemma len_filter_le {A : Type} (f : A -> bool) (l : list A) :
  len (filter f l) <= len l.
Proof.
  unfold len. apply inj_le. apply filter_length_le.
Qed.

Lemma len_map {A B : Type} (f : A -> B) (l : list A) : len (map f l) = len l.
Proof. unfold len. now rewrite length_map. Qed.

Lemma resolved_subset_nonempty (df : DataFrame) :
  resolved_subset df <> [] -> df <> [].
Proof.
  intros H E. subst df. apply H. reflexivity.
Qed.

Lemma py_truediv_ok (a b : Z) :
  b <> 0 -> py_truediv a b = Ok (Fin (inject_Z a / inject_Z b)).
Proof.
  intros H. unfold py_truediv.
  destruct (Z.eqb_spec b 0) as [E|_]; [contradiction | reflexivity].
Qed.

Lemma np_truediv_pos (a b : Z) :
  0 < b -> np_truediv a b = Fin (inject_Z a / inject_Z b).
Proof.
  intros H. unfold np_truediv.
  destruct (Z.eqb_spec b 0) as [E|_]; [lia | reflexivity].
Qed.

(** ** The empty table *)

(** C10. On the table with no rows [calculate_metrics] raises
    ZeroDivisionError while computing [resolution_rate]; whenever it
    returns a dictionary, the table had at least one row. *)
Theorem calculate_metrics_empty_table :
  calculate_metrics [] = Raise ZeroDivisionError /\
  forall (df : DataFrame) (m : Metrics.t),
    calculate_metrics df = Ok m -> 0 < len df.
Proof.
  split; [reflexivity |].
  intros df m H.
  destruct df as [|r tl].
  - discriminate H.
  - rewrite len_cons. pose proof (len_nonneg tl). lia.
Qed.

Lemma calculate_metrics_empty_table_witness :
  exists m, calculate_metrics table_mixed = Ok m /\ 0 < len table_mixed.
Proof.
  destruct (calculate_metrics table_mixed) as [m|e] eqn:E.
  - exists m. split; [reflexivity |].
    exact (proj2 calculate_metrics_empty_table table_mixed m E).
  - vm_compute in E. discriminate E.
Defined.

(** ** Counts and resolution rate *)

(** C7. On a table with at least one row [calculate_metrics] returns;
    [open + resolved = total], [total] is the number of rows, and
    [resolution_rate] is [resolved / total * 100], between 0 and 100. *)
Theorem counts_and_resolution_rate (df : DataFrame) :
  df <> [] ->
  exists m, calculate_metrics df = Ok m /\
    Metrics.open m + Metrics.resolved m = Metrics.total m /\
    Metrics.total m = len df /\
    Metrics.resolution_rate m =
      Fin (inject_Z (Metrics.resolved m) / inject_Z (Metrics.total m) * inject_Z 100) /\
    fle (Fin 0) (Metrics.resolution_rate m) /\
    fle (Metrics.resolution_rate m) (Fin 100).
Proof.
  intros H. unfold calculate_metrics.
  rewrite py_truediv_ok by (rewrite len_zero_iff; exact H).
  simpl. eexists. split; [reflexivity |]. simpl.
  assert (Hpos : 0 < len df).
  { pose proof (len_nonneg df). pose proof (proj1 (len_zero_iff df)). 
    destruct (Z.eq_dec (len df) 0); [tauto | lia]. }
  assert (Hr0 : 0 <= len (resolved_subset df)) by apply len_nonneg.
  assert (Hrt : len (resolved_subset df) <= len df) by apply len_filter_le.
  assert (HposQ : (0 < inject_Z (len df))%Q).
  { change 0%Q with (inject_Z 0). rewrite <- Zlt_Qlt. exact Hpos. }
  assert (Hr0Q : (0 <= inject_Z (len (resolved_subset df)))%Q).
  { change 0%Q with (inject_Z 0). rewrite <- Zle_Qle. exact Hr0. }
  assert (HrtQ : (inject_Z (len (resolved_subset df)) <= inject_Z (len df))%Q).
  { rewrite <- Zle_Qle. exact Hrt. }
  repeat split.
  - lia.
  - unfold fle, fleb. apply Qle_bool_iff.
    apply Qmult_le_0_compat; [| discriminate].
    apply Qle_shift_div_l; [exact HposQ | lra].
  - unfold fle, fleb. apply Qle_bool_iff.
    assert (Hq : (inject_Z (len (resolved_subset df)) / inject_Z (len df) <= 1)%Q).
    { apply Qle_shift_div_r; [exact HposQ | lra]. }
    change (inject_Z 100) with 100%Q. lra.
Qed.

Lemma counts_and_resolution_rate_witness :
  exists m, calculate_metrics table_mixed = Ok m /\
    Metrics.open m + Metrics.resolved m = Metrics.total m /\
    Metrics.total m = len table_mixed /\
    Metrics.resolution_rate m =
      Fin (inject_Z (Metrics.resolved m) / inject_Z (Metrics.total m) * inject_Z 100) /\
    fle (Fin 0) (Metrics.resolution_rate m) /\
    fle (Metrics.resolution_rate m) (Fin 100).
Proof.
  apply (counts_and_resolution_rate table_mixed).
  vm_compute. discriminate.
Defined.

(** ** The empty resolved subset *)

(** C3. When the table has rows but none of them is in the resolved
    subset, [calculate_metrics] returns, and the mean, the median and the
    four percentiles of the elapsed days are NaN. *)
Theorem empty_resolved_subset_gives_nan (df : DataFrame) :
  df <> [] ->
  resolved_subset df = [] ->
  exists m, calculate_metrics df = Ok m /\
    is_nan (Metrics.avg_days m) /\
    is_nan (Metrics.median_days m) /\
    is_nan (Metrics.p25_days m) /\
    is_nan (Metrics.p75_days m) /\
    is_nan (Metrics.p90_days m) /\
    is_nan (Metrics.p95_days m).
Proof.
  intros Hdf Hres. unfold calculate_metrics.
  rewrite py_truediv_ok by (rewrite len_zero_iff; exact Hdf).
  rewrite Hres. simpl.
  eexists. split; [reflexivity |].
  simpl. unfold is_nan. repeat split; reflexivity.
Qed.

Lemma empty_resolved_subset_gives_nan_witness :
  exists m, calculate_metrics table_open = Ok m /\
    is_nan (Metrics.avg_days m) /\
    is_nan (Metrics.median_days m) /\
    is_nan (Metrics.p25_days m) /\
    is_nan (Metrics.p75_days m) /\
    is_nan (Metrics.p90_days m) /\
    is_nan (Metrics.p95_days m).
Proof.
  apply (empty_resolved_subset_gives_nan table_open).
  - vm_compute. discriminate.
  - vm_compute. reflexivity.
Defined.

(** ** The loader *)

Lemma mapM_derive_created (issues : list Issue.t) (rows : DataFrame) :
  mapM (fun i => derive i None) issues = Ok rows ->
  Forall (fun i => epoch_floor < Issue.created i) issues ->
  Forall (fun r => epoch_floor < Row.created r) rows.
Proof.
  revert rows. induction issues as [|i tl IH]; intros rows H HF.
  - simpl in H. injection H as <-. constructor.
  - simpl in H. unfold derive at 1 in H.
    destruct (to_datetime_raise (Issue.created i)) as [dt|e]; simpl in H;
      [| discriminate H].
    destruct (mapM (fun i0 => derive i0 None) tl) as [ys|e] eqn:E; simpl in H;
      [| discriminate H].
    injection H as <-.
    inversion HF as [|? ? Hi Htl]; subst.
    constructor; [exact Hi | apply IH; [reflexivity | exact Htl]].
Qed.

Lemma merge_left_row_created (resolutions : list Resolution.t) (r : Row.t) :
  Forall (fun r' => Row.created r' = Row.created r)
    (merge_left_row resolutions r).
Proof.
  unfold merge_left_row.
  destruct (matches (Row.resolution r) resolutions) as [|m ms].
  - constructor; [reflexivity | constructor].
  - apply Forall_forall. intros r' Hin.
    apply in_map_iff in Hin. destruct Hin as [m' [<- _]]. reflexivity.
Qed.

Lemma merge_left_created (left : DataFrame) (resolutions : list Resolution.t) :
  Forall (fun r => epoch_floor < Row.created r) left ->
  Forall (fun r => epoch_floor < Row.created r) (merge_left left resolutions).
Proof.
  intros HF. unfold merge_left. apply Forall_flat_map.
  apply Forall_forall. intros r Hin.
  pose proof (proj1 (Forall_forall _ _) HF r Hin) as Hr.
  eapply Forall_impl; [| apply merge_left_row_created].
  intros r' E. simpl in E. rewrite E. exact Hr.
Qed.

(** C6. Every row of the cleaned table that [load_data] returns has a
    creation timestamp strictly above 1,000,000,000,000 ms. *)
Theorem load_data_above_epoch_floor
    (fs : filesystem) (issues_csv resolutions_csv : string) (df : DataFrame) :
  load_data fs issues_csv resolutions_csv = Ok df ->
  Forall (fun r => 1000000000000 < Row.created r) df.
Proof.
  unfold load_data. intros H.
  destruct (read_csv fs issues_csv) as [it|e]; simpl in H; [| discriminate H].
  destruct (read_csv fs resolutions_csv) as [rt|e]; simpl in H; [| discriminate H].
  destruct (issue_columns it) as [issues|e]; simpl in H; [| discriminate H].
  destruct (mapM (fun i => derive i None)
              (filter (fun i => epoch_floor <? Issue.created i) issues))
    as [derived|e] eqn:E; simpl in H; [| discriminate H].
  destruct (resolution_columns rt) as [resolutions|e]; simpl in H;
    [| discriminate H].
  injection H as <-.
  apply merge_left_created.
  apply (mapM_derive_created _ _ E).
  apply Forall_forall. intros i Hin.
  apply filter_In in Hin. destruct Hin as [_ Hlt].
  apply Z.ltb_lt in Hlt. exact Hlt.
Qed.

Lemma load_data_above_epoch_floor_witness :
  exists df,
    load_data (fs_with issues_with_sentinels)
      "data/issues.csv" "data/resolutions.csv" = Ok df /\
    len df = 2 /\
    Forall (fun r => 1000000000000 < Row.created r) df.
Proof.
  destruct (load_data (fs_with issues_with_sentinels)
              "data/issues.csv" "data/resolutions.csv") as [df|e] eqn:E.
  - exists df. split; [reflexivity |]. split.
    + vm_compute in E. injection E as <-. reflexivity.
    + exact (load_data_above_epoch_floor _ _ _ df E).
  - vm_compute in E. discriminate E.
Defined.

(** C8. With one of its two paths absent, [load_data] raises
    FileNotFoundError; when that path is one of the two that [main] reads,
    [main] catches the exception and returns [False], whatever the
    rendering would have done. *)
Theorem missing_file_is_handled
    (fs : filesystem) (issues_csv resolutions_csv : string) :
  fs issues_csv = None \/ fs resolutions_csv = None ->
  load_data fs issues_csv resolutions_csv = Raise FileNotFoundError /\
  (issues_csv = "data/issues.csv"%string ->
   resolutions_csv = "data/resolutions.csv"%string ->
   forall render, main render fs = Ok false).
Proof.
  intros H.
  assert (L : load_data fs issues_csv resolutions_csv = Raise FileNotFoundError).
  { unfold load_data, read_csv.
    destruct (fs issues_csv) as [it|]; simpl; [| reflexivity].
    destruct H as [H|H]; [discriminate H |].
    rewrite H. reflexivity. }
  split; [exact L |].
  intros -> -> render. unfold main. rewrite L. reflexivity.
Qed.

Lemma missing_file_is_handled_witness :
  load_data fs_empty "data/issues.csv" "data/resolutions.csv"
    = Raise FileNotFoundError /\
  forall render, main render fs_empty = Ok false.
Proof.
  destruct (missing_file_is_handled fs_empty
              "data/issues.csv" "data/resolutions.csv"
              (or_introl eq_refl)) as [L M].
  split; [exact L | exact (M eq_refl eq_refl)].
Defined.

(** ** The worked example *)

Lemma elapsed_days_five (df : DataFrame) :
  elapsed_days_are df [1; 2; 3; 10; 31] ->
  exists q1 q2 q3 q4 q5,
    days_column (resolved_subset df) =
      [Some q1; Some q2; Some q3; Some q4; Some q5] /\
    (q1 == 1 /\ q2 == 2 /\ q3 == 3 /\ q4 == 10 /\ q5 == 31)%Q.
Proof.
  unfold elapsed_days_are. intros H.
  repeat match goal with
         | H : Forall2 _ _ (_ :: _) |- _ => inversion H; clear H; subst
         | H : Forall2 _ _ [] |- _ => inversion H; clear H; subst
         | H : exists q, _ = Some q /\ _ |- _ => destruct H as [? [-> ?]]
         end.
  do 5 eexists. split; [reflexivity |].
  repeat split; assumption.
Qed.

(** C1, as amended.  When the elapsed days of the resolved subset are
    1, 2, 3, 10 and 31, [calculate_metrics] returns [sla_30day] = 80,
    [sla_7day] = 60 and [long_30pct] = 20: the issue that took 31 days is
    outside the 30-day threshold. *)
Theorem sla_worked_example (df : DataFrame) :
  elapsed_days_are df [1; 2; 3; 10; 31] ->
  exists m, calculate_metrics df = Ok m /\
    feq (Metrics.sla_30day m) (Fin 80) /\
    feq (Metrics.sla_7day m) (Fin 60) /\
    feq (Metrics.long_30pct m) (Fin 20).
Proof.
  intros H.
  destruct (elapsed_days_five df H)
    as (q1 & q2 & q3 & q4 & q5 & Hdays & H1 & H2 & H3 & H4 & H5).
  assert (Hlen : len (resolved_subset df) = 5).
  { rewrite <- (len_map Row.days_to_resolve).
    fold (days_column (resolved_subset df)). rewrite Hdays. reflexivity. }
  assert (Hdf : df <> []).
  { apply resolved_subset_nonempty. intros E. rewrite E in Hlen. discriminate. }
  unfold calculate_metrics.
  rewrite py_truediv_ok by (rewrite len_zero_iff; exact Hdf).
  simpl. eexists. split; [reflexivity |].
  simpl. rewrite Hdays, Hlen. unfold map, cell_le, cell_gt.
  rewrite H1, H2, H3, H4, H5.
  repeat split; vm_compute; reflexivity.
Qed.

Lemma table_five_elapsed_days : elapsed_days_are table_five [1; 2; 3; 10; 31].
Proof.
  unfold elapsed_days_are.
  let c := eval vm_compute in (days_column (resolved_subset table_five)) in
  change (days_column (resolved_subset table_five)) with c.
  repeat constructor; eexists; (split; [reflexivity | vm_compute; reflexivity]).
Qed.

Lemma sla_worked_example_witness :
  exists m, calculate_metrics table_five = Ok m /\
    feq (Metrics.sla_30day m) (Fin 80) /\
    feq (Metrics.sla_7day m) (Fin 60) /\
    feq (Metrics.long_30pct m) (Fin 20).
Proof.
  apply (sla_worked_example table_five).
  unfold elapsed_days_are.
  let c := eval vm_compute in (days_column (resolved_subset table_five)) in
  change (days_column (resolved_subset table_five)) with c.
  repeat constructor; eexists; (split; [reflexivity | vm_compute; reflexivity]).
Defined.

(** C1, as stated, fails: on a table whose resolved subset has elapsed days
    1, 2, 3, 10 and 31 the returned [sla_30day] is not 100. *)
Lemma sla_worked_example_not_100 :
  elapsed_days_are table_five [1; 2; 3; 10; 31] /\
  ~ (exists m, calculate_metrics table_five = Ok m /\
       feq (Metrics.sla_30day m) (Fin 100) /\
       feq (Metrics.sla_7day m) (Fin 60) /\
       feq (Metrics.long_30pct m) (Fin 20)).
Proof.
  split; [exact table_five_elapsed_days |].
  intros (m & Hm & H30 & _).
  vm_compute in Hm. injection Hm as <-.
  vm_compute in H30. discriminate H30.
Qed.

(** ** Sorting and distinct values *)

Section SortedFacts.
Context {A : Type} (leb : A -> A -> bool).

Lemma insert_perm (x : A) (l : list A) : Permutation (x :: l) (insert leb x l).
Proof.
  induction l as [|y tl IH]; simpl.
  - apply Permutation_refl.
  - destruct (leb x y).
    + apply Permutation_refl.
    + eapply perm_trans; [apply perm_swap |].
      apply perm_skip. exact IH.
Qed.

Lemma sorted_perm (l : list A) : Permutation l (sorted leb l).
Proof.
  induction l as [|x tl IH]; simpl.
  - apply perm_nil.
  - eapply perm_trans; [| apply insert_perm].
    apply perm_skip. exact IH.
Qed.

Lemma sorted_length (l : list A) : List.length (sorted leb l) = List.length l.
Proof. symmetry. apply Permutation_length. apply sorted_perm. Qed.

Lemma sorted_nil_iff (l : list A) : sorted leb l = [] <-> l = [].
Proof.
  split; intros H.
  - apply length_zero_iff_nil. rewrite <- sorted_length, H. reflexivity.
  - subst l. reflexivity.
Qed.
End SortedFacts.

Lemma unique_In (x : string) (l : list string) : In x (unique l) <-> In x l.
Proof.
  induction l as [|y tl IH]; simpl; [tauto |].
  rewrite filter_In, IH.
  destruct (String.eqb_spec y x) as [E|N]; simpl.
  - split; [intros [H|[H F]]; [now left | discriminate F] | intros _; now left].
  - split; [intros [H|[H _]]; [now left | now right] | ].
    intros [H|H]; [now left | right; split; [exact H | reflexivity]].
Qed.

Lemma unique_NoDup (l : list string) : NoDup (unique l).
Proof.
  induction l as [|x tl IH]; simpl.
  - constructor.
  - constructor.
    + rewrite filter_In. intros [_ H].
      rewrite String.eqb_refl in H. discriminate H.
    + apply NoDup_filter. exact IH.
Qed.

Lemma sum_Z_cons (x : Z) (l : list Z) : sum_Z (x :: l) = x + sum_Z l.
Proof. reflexivity. Qed.

Lemma sum_Z_perm (l l' : list Z) : Permutation l l' -> sum_Z l = sum_Z l'.
Proof.
  induction 1; rewrite ?sum_Z_cons; lia.
Qed.

(** ** Per-category breakdown *)

Lemma mapM_ok {A B : Type} (f : A -> result B) (g : A -> B) (l : list A) :
  (forall x, In x l -> f x = Ok (g x)) -> mapM f l = Ok (map g l).
Proof.
  induction l as [|x tl IH]; intros H; simpl.
  - reflexivity.
  - rewrite (H x (or_introl eq_refl)). simpl.
    rewrite IH by (intros y Hy; apply H; right; exact Hy).
    reflexivity.
Qed.

Lemma in_category_nonempty (df : DataFrame) (c : string) :
  In c (map Row.category df) -> 0 < len (in_category c df).
Proof.
  intros H. apply in_map_iff in H. destruct H as [r [E Hin]].
  assert (Hr : In r (in_category c df)).
  { unfold in_category. apply filter_In. split; [exact Hin |].
    rewrite E. apply String.eqb_refl. }
  destruct (in_category c df) as [|r' tl]; [destruct Hr |].
  rewrite len_cons. pose proof (len_nonneg tl). lia.
Qed.

Lemma category_metrics_ok (df : DataFrame) (c : string) :
  In c (map Row.category df) ->
  category_metrics df c = Ok (category_row df c).
Proof.
  intros H. pose proof (in_category_nonempty df c H) as Hpos.
  unfold category_metrics, category_row. fold (in_category c df).
  destruct (Z.ltb_spec 0 (len (in_category c df))) as [_|Hle]; [| lia].
  rewrite py_truediv_ok by lia. reflexivity.
Qed.

Lemma categories_In (df : DataFrame) (c : string) :
  In c (sorted String.leb (unique (map Row.category df))) <->
  In c (map Row.category df).
Proof.
  split; intros H.
  - apply unique_In.
    eapply Permutation_in; [apply Permutation_sym, sorted_perm | exact H].
  - eapply Permutation_in; [apply sorted_perm |]. apply unique_In. exact H.
Qed.

(** [get_metrics_by_category] returns on every table, one row per distinct
    category, by ascending category name. *)
Lemma get_metrics_by_category_ok (df : DataFrame) :
  get_metrics_by_category df =
    Ok (map (category_row df) (sorted String.leb (unique (map Row.category df)))).
Proof.
  unfold get_metrics_by_category. apply mapM_ok.
  intros c Hc. apply category_metrics_ok. apply categories_In. exact Hc.
Qed.

(** C2, as amended.  For every category of the breakdown, the reported
    resolved count is the number of rows of that category whose resolution
    instant is not null, whatever the sign of their elapsed days, and the
    resolution rate is that count over the category's total, times 100. *)
Theorem category_resolved_count (df : DataFrame) :
  exists cms, get_metrics_by_category df = Ok cms /\
    Forall (fun c =>
      CategoryMetrics.total c = len (in_category (CategoryMetrics.category c) df) /\
      CategoryMetrics.resolved c =
        len (filter (fun r => notna (Row.resolved_dt r))
               (in_category (CategoryMetrics.category c) df)) /\
      0 < CategoryMetrics.total c /\
      CategoryMetrics.resolution_rate c =
        Fin (inject_Z (CategoryMetrics.resolved c)
             / inject_Z (CategoryMetrics.total c) * inject_Z 100)) cms.
Proof.
  eexists. split; [apply get_metrics_by_category_ok |].
  apply Forall_forall. intros cm Hcm.
  apply in_map_iff in Hcm. destruct Hcm as [c [<- Hc]].
  apply categories_In in Hc. simpl.
  repeat split. apply in_category_nonempty. exact Hc.
Qed.

(** C2, as stated, fails: an issue resolved before it was created counts as
    resolved in its category although it is outside the resolved subset. *)
Lemma category_resolved_count_not_subset :
  exists cms, get_metrics_by_category table_negative = Ok cms /\
    ~ Forall (fun c =>
        CategoryMetrics.resolved c =
          len (in_category (CategoryMetrics.category c)
                 (resolved_subset table_negative))) cms.
Proof.
  eexists. split; [vm_compute; reflexivity |].
  intros H. inversion H as [|? ? Hc _]. vm_compute in Hc. discriminate Hc.
Qed.

Lemma indicator_sum (keys : list string) (c : string) :
  NoDup keys -> In c keys ->
  sum_Z (map (fun k => if (c =? k)%string then 1 else 0) keys) = 1.
Proof.
  induction keys as [|k tl IH]; intros ND Hin; [destruct Hin |].
  inversion ND as [|? ? Hnotin ND']; subst. simpl.
  destruct (String.eqb_spec c k) as [E|N].
  - subst k.
    assert (Z0 : sum_Z (map (fun k => if (c =? k)%string then 1 else 0) tl) = 0).
    { clear IH ND ND' Hin. induction tl as [|k tl IH]; [reflexivity |].
      simpl. destruct (String.eqb_spec c k) as [E|_].
      - subst k. exfalso. apply Hnotin. now left.
      - rewrite IH; [reflexivity |]. intros H. apply Hnotin. now right. }
    rewrite Z0. reflexivity.
  - destruct Hin as [E|Hin]; [congruence |].
    rewrite IH by assumption. reflexivity.
Qed.

Lemma totals_sum (keys : list string) (df : DataFrame) :
  NoDup keys ->
  (forall r, In r df -> In (Row.category r) keys) ->
  sum_Z (map (fun k => len (in_category k df)) keys) = len df.
Proof.
  intros ND. induction df as [|r tl IH]; intros Hall.
  - clear ND Hall. induction keys as [|k ks IHk]; [reflexivity |].
    rewrite map_cons, sum_Z_cons, IHk. reflexivity.
  - assert (E : sum_Z (map (fun k => len (in_category k (r :: tl))) keys) =
                sum_Z (map (fun k => if (Row.category r =? k)%string then 1 else 0) keys)
                + sum_Z (map (fun k => len (in_category k tl)) keys)).
    { clear. induction keys as [|k ks IHk]; [reflexivity |].
      rewrite !map_cons, !sum_Z_cons, IHk.
      assert (Ek : len (in_category k (r :: tl)) =
                   (if (Row.category r =? k)%string then 1 else 0)
                   + len (in_category k tl)).
      { unfold in_category. simpl filter.
        destruct (Row.category r =? k)%string; [apply len_cons | reflexivity]. }
      rewrite Ek. lia. }
    rewrite E, IH by (intros r' Hr'; apply Hall; now right).
    rewrite indicator_sum; [rewrite len_cons; reflexivity | exact ND |].
    apply Hall. now left.
Qed.

(** C9. The per-category totals of the breakdown add up to the number of
    rows of the table. *)
Theorem category_totals_sum (df : DataFrame) :
  exists cms, get_metrics_by_category df = Ok cms /\
    sum_Z (map CategoryMetrics.total cms) = len df.
Proof.
  eexists. split; [apply get_metrics_by_category_ok |].
  rewrite map_map. simpl.
  rewrite <- (sum_Z_perm _ _
    (Permutation_map (fun k => len (in_category k df))
       (sorted_perm String.leb (unique (map Row.category df))))).
  apply totals_sum.
  - apply unique_NoDup.
  - intros r Hr. apply unique_In. apply in_map. exact Hr.
Qed.

(** ** SLA percentages *)

Lemma count_true_mono {A : Type} (f g : A -> bool) (l : list A) :
  (forall x, f x = true -> g x = true) ->
  count_true (map f l) <= count_true (map g l).
Proof.
  intros H. unfold count_true.
  induction l as [|x tl IH]; simpl; [lia |].
  destruct (f x) eqn:Ef.
  - rewrite (H x Ef). rewrite !len_cons. lia.
  - destruct (g x); [rewrite len_cons |]; lia.
Qed.

Lemma cell_le_mono (d : option Q) (a b : Z) :
  a <= b -> cell_le d a = true -> cell_le d b = true.
Proof.
  intros Hab. destruct d as [q|]; simpl; [| discriminate].
  rewrite !Qle_bool_iff. intros H.
  apply Qle_trans with (inject_Z a); [exact H |].
  rewrite <- Zle_Qle. exact Hab.
Qed.

(** The share [c / n * 100] grows with the count [c]. *)
Lemma share_mono (c1 c2 n : Z) :
  0 < n -> c1 <= c2 ->
  fle (fmul (np_truediv c1 n) 100) (fmul (np_truediv c2 n) 100).
Proof.
  intros Hn Hc. rewrite !np_truediv_pos by exact Hn.
  unfold fle, fmul, fleb. apply Qle_bool_iff.
  apply Qmult_le_compat_r; [| discriminate].
  unfold Qdiv. apply Qmult_le_compat_r.
  - rewrite <- Zle_Qle. exact Hc.
  - apply Qinv_le_0_compat. change 0%Q with (inject_Z 0).
    rewrite <- Zle_Qle. lia.
Qed.

Lemma len_pos {A : Type} (l : list A) : l <> [] -> 0 < len l.
Proof.
  intros H. destruct l as [|x tl]; [contradiction |].
  rewrite len_cons. pose proof (len_nonneg tl). lia.
Qed.

(** C4. With a non-empty resolved subset, the five SLA percentages that
    [calculate_metrics] returns do not decrease with the threshold. *)
Theorem sla_non_decreasing (df : DataFrame) :
  resolved_subset df <> [] ->
  exists m, calculate_metrics df = Ok m /\
    fle (Metrics.sla_1day m) (Metrics.sla_3day m) /\
    fle (Metrics.sla_3day m) (Metrics.sla_7day m) /\
    fle (Metrics.sla_7day m) (Metrics.sla_14day m) /\
    fle (Metrics.sla_14day m) (Metrics.sla_30day m).
Proof.
  intros H. pose proof (len_pos _ H) as Hn.
  unfold calculate_metrics.
  rewrite py_truediv_ok
    by (rewrite len_zero_iff; apply resolved_subset_nonempty; exact H).
  simpl. eexists. split; [reflexivity |]. simpl.
  repeat split; apply share_mono; try exact Hn;
    apply count_true_mono; intros d; apply cell_le_mono; lia.
Qed.

Lemma sla_non_decreasing_witness :
  exists m, calculate_metrics table_mixed = Ok m /\
    fle (Metrics.sla_1day m) (Metrics.sla_3day m) /\
    fle (Metrics.sla_3day m) (Metrics.sla_7day m) /\
    fle (Metrics.sla_7day m) (Metrics.sla_14day m) /\
    fle (Metrics.sla_14day m) (Metrics.sla_30day m).
Proof.
  apply (sla_non_decreasing table_mixed).
  vm_compute. discriminate.
Defined.

(** ** Order statistics *)

Lemma insert_sorted (x : Q) (l : list Q) :
  StronglySorted Qle l -> StronglySorted Qle (insert Qle_bool x l).
Proof.
  induction l as [|y tl IH]; intros Hs; simpl.
  - constructor; constructor.
  - inversion Hs as [|? ? Htl Hy]; subst.
    destruct (Qle_bool x y) eqn:E.
    + apply Qle_bool_iff in E.
      constructor; [exact Hs |].
      constructor; [exact E |].
      eapply Forall_impl; [| exact Hy].
      intros z Hz. apply Qle_trans with y; assumption.
    + assert (Hyx : (y <= x)%Q).
      { destruct (Qlt_le_dec y x) as [Hlt|Hle].
        - apply Qlt_le_weak. exact Hlt.
        - apply Qle_bool_iff in Hle. congruence. }
      constructor; [apply IH; exact Htl |].
      apply Forall_forall. intros z Hz.
      apply (Permutation_in z (Permutation_sym (insert_perm Qle_bool x tl))) in Hz.
      destruct Hz as [<-|Hz]; [exact Hyx |].
      exact (proj1 (Forall_forall _ _) Hy z Hz).
Qed.

Lemma sorted_StronglySorted (l : list Q) :
  StronglySorted Qle (sorted Qle_bool l).
Proof.
  induction l as [|x tl IH]; simpl.
  - constructor.
  - apply insert_sorted. exact IH.
Qed.

(** In a sorted column the order statistics grow with their rank. *)
Lemma nth_sorted_le (l : list Q) :
  StronglySorted Qle l ->
  forall i j, (i <= j < List.length l)%nat -> (nth i l 0 <= nth j l 0)%Q.
Proof.
  induction 1 as [|x tl Hs IH Hx]; intros i j Hij; simpl in Hij; [lia |].
  destruct i as [|i], j as [|j]; simpl.
  - apply Qle_refl.
  - apply (proj1 (Forall_forall _ _) Hx). apply nth_In. lia.
  - lia.
  - apply IH. lia.
Qed.

Lemma sorted_ranked (l : list Q) : ranked (sorted Qle_bool l).
Proof.
  unfold ranked. apply nth_sorted_le. apply sorted_StronglySorted.
Qed.

(** The interpolated value lies between the two order statistics. *)
Lemma interpolation_bounds (a b f : Q) :
  (a <= b -> 0 <= f -> f <= 1 -> a <= a + (b - a) * f /\ a + (b - a) * f <= b)%Q.
Proof.
  intros Hab Hf0 Hf1. split; nra.
Qed.

Lemma interpolation_mono (a b f g : Q) :
  (a <= b -> f <= g -> a + (b - a) * f <= a + (b - a) * g)%Q.
Proof.
  intros Hab Hfg. nra.
Qed.

(** Linear interpolation over a sorted, non-empty column grows with the
    requested quantile. *)
Lemma quantile_sorted_mono (v : list Q) (p q : Q) :
  ranked v -> v <> [] ->
  (0 <= p)%Q -> (p <= q)%Q -> (q <= 1)%Q ->
  (quantile_sorted v p <= quantile_sorted v q)%Q.
Proof.
  intros Hr Hv Hp Hpq Hq.
  pose proof (len_pos v Hv) as Hn.
  unfold quantile_sorted.
  set (n := len v) in *.
  assert (HN : (0 <= inject_Z (n - 1))%Q).
  { change 0%Q with (inject_Z 0). rewrite <- Zle_Qle. lia. }
  set (N := inject_Z (n - 1)) in *.
  set (pp := (p * N)%Q). set (pq := (q * N)%Q).
  assert (Hpp0 : (0 <= pp)%Q) by (unfold pp; nra).
  assert (Hppq : (pp <= pq)%Q) by (unfold pp, pq; nra).
  assert (HpqN : (pq <= N)%Q) by (unfold pq; nra).
  assert (Hlo0 : 0 <= Qfloor pp).
  { rewrite <- (Qfloor_Z 0). apply Qfloor_resp_le. exact Hpp0. }
  assert (Hlo : Qfloor pp <= Qfloor pq) by (apply Qfloor_resp_le; exact Hppq).
  assert (HloN : Qfloor pq <= n - 1).
  { rewrite <- (Qfloor_Z (n - 1)). apply Qfloor_resp_le. exact HpqN. }
  pose proof (Qfloor_le pp) as Hfp. pose proof (Qlt_floor pp) as Hcp.
  pose proof (Qfloor_le pq) as Hfq. pose proof (Qlt_floor pq) as Hcq.
  rewrite inject_Z_plus in Hcp, Hcq.
  change (inject_Z 1) with 1%Q in Hcp, Hcq.
  set (lp := Qfloor pp) in *. set (lq := Qfloor pq) in *.
  assert (Hlen : n = Z.of_nat (List.length v)) by reflexivity.
  assert (Hap : (nth (Z.to_nat lp) v 0 <= nth (Z.to_nat (Z.min (lp + 1) (n - 1))) v 0)%Q)
    by (apply Hr; lia).
  assert (Haq : (nth (Z.to_nat lq) v 0 <= nth (Z.to_nat (Z.min (lq + 1) (n - 1))) v 0)%Q)
    by (apply Hr; lia).
  destruct (Z.eq_dec lp lq) as [E|NE].
  - rewrite <- E in *. apply interpolation_mono; [exact Hap | lra].
  - assert (Hmid : (nth (Z.to_nat (Z.min (lp + 1) (n - 1))) v 0
                    <= nth (Z.to_nat lq) v 0)%Q) by (apply Hr; lia).
    destruct (interpolation_bounds _ _ (pp - inject_Z lp) Hap) as [_ Hup];
      [lra | lra |].
    destruct (interpolation_bounds _ _ (pq - inject_Z lq) Haq) as [Hdown _];
      [lra | lra |].
    eapply Qle_trans; [exact Hup |].
    eapply Qle_trans; [exact Hmid | exact Hdown].
Qed.

Lemma floor_half (m : Z) : Qfloor ((1 # 2) * inject_Z m) = m / 2.
Proof.
  unfold Qfloor, Qmult, inject_Z. simpl Qnum. simpl Qden.
  rewrite Z.mul_1_l. reflexivity.
Qed.

(** The median is the quantile of order one half. *)
Lemma median_is_half_quantile (v : list Q) :
  v <> [] -> (median_sorted v == quantile_sorted v (1 # 2))%Q.
Proof.
  intros Hv. pose proof (len_pos v Hv) as Hn.
  unfold median_sorted, quantile_sorted.
  rewrite floor_half. unfold len in *.
  set (n := List.length v) in *.
  destruct (Nat.even n) eqn:Ev.
  - apply Nat.even_spec in Ev. destruct Ev as [k Hk].
    assert (Hdiv : (n / 2 = k)%nat).
    { rewrite Hk, Nat.mul_comm. apply Nat.div_mul. discriminate. }
    assert (Hlo : (Z.of_nat n - 1) / 2 = Z.of_nat k - 1).
    { symmetry. apply (Z.div_unique _ 2 _ 1); lia. }
    rewrite Hdiv, Hlo.
    replace (Z.to_nat (Z.of_nat k - 1)) with (k - 1)%nat by lia.
    replace (Z.to_nat (Z.min (Z.of_nat k - 1 + 1) (Z.of_nat n - 1))) with k by lia.
    assert (Hfrac : ((1 # 2) * inject_Z (Z.of_nat n - 1)
                     - inject_Z (Z.of_nat k - 1) == 1 # 2)%Q).
    { replace (Z.of_nat n - 1) with (2 * (Z.of_nat k - 1) + 1) by lia.
      rewrite inject_Z_plus, inject_Z_mult.
      change (inject_Z 2) with 2%Q. change (inject_Z 1) with 1%Q. field. }
    rewrite Hfrac. field.
  - assert (Hodd : Nat.odd n = true).
    { unfold Nat.odd. rewrite Ev. reflexivity. }
    apply Nat.odd_spec in Hodd. destruct Hodd as [k Hk].
    assert (Hdiv : (n / 2 = k)%nat).
    { symmetry. apply (Nat.div_unique n 2 k 1); lia. }
    assert (Hlo : (Z.of_nat n - 1) / 2 = Z.of_nat k).
    { symmetry. apply (Z.div_unique _ 2 _ 0); lia. }
    rewrite Hdiv, Hlo. rewrite Nat2Z.id.
    assert (Hfrac : ((1 # 2) * inject_Z (Z.of_nat n - 1)
                     - inject_Z (Z.of_nat k) == 0)%Q).
    { replace (Z.of_nat n - 1) with (2 * Z.of_nat k) by lia.
      rewrite inject_Z_mult. change (inject_Z 2) with 2%Q. field. }
    rewrite Hfrac. field.
Qed.

(** The elapsed days of the resolved subset hold no NaN. *)
Lemma resolved_days_dropna (df : DataFrame) :
  List.length (dropna (days_column (resolved_subset df)))
  = List.length (resolved_subset df).
Proof.
  unfold resolved_subset, days_column.
  induction df as [|r tl IH]; simpl; [reflexivity |].
  destruct (notna (Row.resolved_dt r)); simpl; [| exact IH].
  destruct (Row.days_to_resolve r) as [q|] eqn:E; simpl; [| exact IH].
  destruct (Qle_bool (inject_Z 0) q); simpl; [| exact IH].
  rewrite E. simpl. rewrite IH. reflexivity.
Qed.

Lemma quantile_resolved (df : DataFrame) (q : Q) :
  resolved_subset df <> [] ->
  quantile (days_column (resolved_subset df)) q =
    Fin (quantile_sorted
           (sorted Qle_bool (dropna (days_column (resolved_subset df)))) q) /\
  median (days_column (resolved_subset df)) =
    Fin (median_sorted
           (sorted Qle_bool (dropna (days_column (resolved_subset df))))) /\
  sorted Qle_bool (dropna (days_column (resolved_subset df))) <> [].
Proof.
  intros H. pose proof (resolved_days_dropna df) as Hl.
  unfold quantile, median.
  destruct (dropna (days_column (resolved_subset df))) as [|x tl] eqn:E.
  - exfalso. apply H. apply length_zero_iff_nil. rewrite <- Hl. reflexivity.
  - repeat split. intros S. apply sorted_nil_iff in S. discriminate S.
Qed.

(** C5. With a non-empty resolved subset, the percentiles that
    [calculate_metrics] returns are ordered:
    p25 <= median <= p75 <= p90 <= p95. *)
Theorem percentiles_ordered (df : DataFrame) :
  resolved_subset df <> [] ->
  exists m, calculate_metrics df = Ok m /\
    fle (Metrics.p25_days m) (Metrics.median_days m) /\
    fle (Metrics.median_days m) (Metrics.p75_days m) /\
    fle (Metrics.p75_days m) (Metrics.p90_days m) /\
    fle (Metrics.p90_days m) (Metrics.p95_days m).
Proof.
  intros H.
  unfold calculate_metrics.
  rewrite py_truediv_ok
    by (rewrite len_zero_iff; apply resolved_subset_nonempty; exact H).
  simpl. eexists. split; [reflexivity |]. simpl.
  destruct (quantile_resolved df (25 # 100) H) as (E25 & Emed & Hne).
  destruct (quantile_resolved df (75 # 100) H) as (E75 & _ & _).
  destruct (quantile_resolved df (90 # 100) H) as (E90 & _ & _).
  destruct (quantile_resolved df (95 # 100) H) as (E95 & _ & _).
  rewrite E25, E75, E90, E95, Emed.
  set (s := sorted Qle_bool (dropna (days_column (resolved_subset df)))) in *.
  assert (Hr : ranked s) by apply sorted_ranked.
  unfold fle, fleb. rewrite !Qle_bool_iff.
  rewrite (median_is_half_quantile s Hne).
  repeat split; apply quantile_sorted_mono; auto; discriminate.
Qed.

Lemma percentiles_ordered_witness :
  exists m, calculate_metrics table_mixed = Ok m /\
    fle (Metrics.p25_days m) (Metrics.median_days m) /\
    fle (Metrics.median_days m) (Metrics.p75_days m) /\
    fle (Metrics.p75_days m) (Metrics.p90_days m) /\
    fle (Metrics.p90_days m) (Metrics.p95_days m).
Proof.
  apply (percentiles_ordered table_mixed).
  vm_compute. discriminate.
Defined.

(** ** More on the loader *)

Lemma load_data_inv
    (fs : filesystem) (issues_csv resolutions_csv : string) (df : DataFrame) :
  load_data fs issues_csv resolutions_csv = Ok df ->
  exists issues resolutions derived,
    fs issues_csv = Some (IssuesTable issues) /\
    fs resolutions_csv = Some (ResolutionsTable resolutions) /\
    mapM (fun i => derive i None) (filter above_floor issues) = Ok derived /\
    df = merge_left derived resolutions.
Proof.
  unfold load_data, read_csv. intros H.
  destruct (fs issues_csv) as [it|]; simpl in H; [| discriminate H].
  destruct (fs resolutions_csv) as [rt|]; simpl in H; [| discriminate H].
  destruct it as [issues|x]; simpl in H; [| discriminate H].
  destruct (mapM (fun i => derive i None)
              (filter (fun i => epoch_floor <? Issue.created i) issues))
    as [derived|e] eqn:E; simpl in H; [| discriminate H].
  destruct rt as [x|resolutions]; simpl in H; [discriminate H |].
  injection H as <-.
  exists issues, resolutions, derived. repeat split. exact E.
Qed.

Lemma mapM_derive_inv (issues : list Issue.t) (rows : DataFrame) :
  mapM (fun i => derive i None) issues = Ok rows ->
  map issue_of rows = issues /\ Forall derived_ok rows.
Proof.
  revert rows. induction issues as [|i tl IH]; intros rows H.
  - simpl in H. injection H as <-. split; constructor.
  - simpl in H. unfold derive at 1, to_datetime_raise in H.
    destruct (to_datetime (Issue.created i)) as [dt|] eqn:Edt; simpl in H;
      [| discriminate H].
    destruct (mapM (fun i0 => derive i0 None) tl) as [ys|e]; simpl in H;
      [| discriminate H].
    injection H as <-.
    destruct (IH ys eq_refl) as [Hmap Hall].
    split.
    + simpl. rewrite Hmap. destruct i; reflexivity.
    + constructor; [| exact Hall].
      unfold derived_ok. simpl. repeat split. exact Edt.
Qed.

Lemma mapM_derive_ok (issues : list Issue.t) :
  Forall (fun i => to_datetime (Issue.created i) <> None) issues ->
  exists rows, mapM (fun i => derive i None) issues = Ok rows.
Proof.
  induction 1 as [|i tl Hi _ [rows IH]]; simpl.
  - eexists. reflexivity.
  - unfold derive at 1, to_datetime_raise.
    destruct (to_datetime (Issue.created i)) as [dt|]; [| contradiction].
    simpl. rewrite IH. simpl. eexists. reflexivity.
Qed.


(** The join changes nothing in a row but its resolution name. *)
Lemma merge_left_row_spec (resolutions : list Resolution.t) (r r' : Row.t) :
  In r' (merge_left_row resolutions r) ->
  issue_of r' = issue_of r /\
  Row.created_dt r' = Row.created_dt r /\
  Row.resolved_dt r' = Row.resolved_dt r /\
  Row.days_to_resolve r' = Row.days_to_resolve r.
Proof.
  unfold merge_left_row.
  destruct (matches (Row.resolution r) resolutions) as [|m ms].
  - intros [<-|[]]. repeat split.
  - intros Hin. apply in_map_iff in Hin. destruct Hin as [m' [<- _]].
    repeat split.
Qed.

Lemma merge_left_row_nonempty (resolutions : list Resolution.t) (r : Row.t) :
  merge_left_row resolutions r <> [].
Proof.
  unfold merge_left_row.
  destruct (matches (Row.resolution r) resolutions); simpl; discriminate.
Qed.

Lemma merge_left_In (left : DataFrame) (resolutions : list Resolution.t) (r' : Row.t) :
  In r' (merge_left left resolutions) <->
  exists r, In r left /\ In r' (merge_left_row resolutions r).
Proof. unfold merge_left. apply in_flat_map. Qed.

(** X1. The cleaned table holds exactly the issues above the validity
    floor: each of them at least once, and nothing else. *)
Theorem load_data_keeps_issues
    (fs : filesystem) (issues_csv resolutions_csv : string)
    (issues : list Issue.t) (df : DataFrame) :
  fs issues_csv = Some (IssuesTable issues) ->
  load_data fs issues_csv resolutions_csv = Ok df ->
  forall i, In i (map issue_of df) <->
            In i issues /\ epoch_floor < Issue.created i.
Proof.
  intros Hfs H i.
  destruct (load_data_inv _ _ _ _ H) as (issues' & rs & derived & Hi & _ & Hd & ->).
  rewrite Hfs in Hi. injection Hi as <-.
  destruct (mapM_derive_inv _ _ Hd) as [Hmap _].
  assert (Hfilter : In i (filter above_floor issues) <->
                    In i issues /\ epoch_floor < Issue.created i).
  { rewrite filter_In. unfold above_floor. rewrite Z.ltb_lt. reflexivity. }
  rewrite <- Hfilter, <- Hmap. rewrite !in_map_iff. split.
  - intros (r' & <- & Hr'). apply merge_left_In in Hr'.
    destruct Hr' as (r & Hr & Hin).
    exists r. split; [| exact Hr].
    symmetry. apply (merge_left_row_spec rs r r' Hin).
  - intros (r & <- & Hr).
    pose proof (merge_left_row_nonempty rs r) as Hne.
    destruct (merge_left_row rs r) as [|r' tl] eqn:E; [contradiction |].
    assert (Hin : In r' (merge_left_row rs r)) by (rewrite E; now left).
    exists r'. split.
    + apply (merge_left_row_spec rs r r' Hin).
    + apply merge_left_In. exists r. split; assumption.
Qed.

Lemma load_data_keeps_issues_witness :
  exists df,
    load_data (fs_with issues_with_sentinels)
      "data/issues.csv" "data/resolutions.csv" = Ok df /\
    forall i, In i (map issue_of df) <->
              In i issues_with_sentinels /\ epoch_floor < Issue.created i.
Proof.
  destruct (load_data (fs_with issues_with_sentinels)
              "data/issues.csv" "data/resolutions.csv") as [df|e] eqn:E.
  - exists df. split; [reflexivity |].
    exact (load_data_keeps_issues (fs_with issues_with_sentinels)
             "data/issues.csv" "data/resolutions.csv"
             issues_with_sentinels df eq_refl E).
  - vm_compute in E. discriminate E.
Defined.

Lemma matches_at_most_one (code : option Z) (resolutions : list Resolution.t) :
  NoDup (map Resolution.id resolutions) ->
  (List.length (matches code resolutions) <= 1)%nat.
Proof.
  destruct code as [c|]; simpl; [| lia].
  induction resolutions as [|m tl IH]; simpl; intros ND; [lia |].
  inversion ND as [|? ? Hnotin ND']; subst.
  destruct (Z.eqb_spec (Resolution.id m) c) as [E|N]; [| apply IH; exact ND'].
  assert (Hnil : filter (fun r => Resolution.id r =? c) tl = []).
  { destruct (filter (fun r => Resolution.id r =? c) tl) as [|m' tl'] eqn:F;
      [reflexivity |].
    exfalso. apply Hnotin.
    assert (Hin : In m' (filter (fun r => Resolution.id r =? c) tl))
      by (rewrite F; now left).
    apply filter_In in Hin. destruct Hin as [Hin Heq].
    apply Z.eqb_eq in Heq. rewrite E, <- Heq. apply in_map. exact Hin. }
  rewrite Hnil. simpl. lia.
Qed.

Lemma merge_left_row_single (resolutions : list Resolution.t) (r : Row.t) :
  NoDup (map Resolution.id resolutions) ->
  map issue_of (merge_left_row resolutions r) = [issue_of r].
Proof.
  intros ND. pose proof (matches_at_most_one (Row.resolution r) resolutions ND) as H.
  unfold merge_left_row.
  destruct (matches (Row.resolution r) resolutions) as [|m [|m' tl]];
    simpl in H; [reflexivity | reflexivity | lia].
Qed.

(** X2. When no two lookup rows share an [id], the left join neither
    duplicates nor reorders: the cleaned table carries the issues above the
    floor, once each, in file order. *)
Theorem load_data_unique_lookup
    (fs : filesystem) (issues_csv resolutions_csv : string)
    (issues : list Issue.t) (resolutions : list Resolution.t) (df : DataFrame) :
  fs issues_csv = Some (IssuesTable issues) ->
  fs resolutions_csv = Some (ResolutionsTable resolutions) ->
  NoDup (map Resolution.id resolutions) ->
  load_data fs issues_csv resolutions_csv = Ok df ->
  map issue_of df = filter above_floor issues.
Proof.
  intros Hi Hr ND H.
  destruct (load_data_inv _ _ _ _ H) as (issues' & rs & derived & Hi' & Hr' & Hd & ->).
  rewrite Hi in Hi'. injection Hi' as <-.
  rewrite Hr in Hr'. injection Hr' as <-.
  destruct (mapM_derive_inv _ _ Hd) as [Hmap _].
  rewrite <- Hmap. clear Hmap Hd H.
  unfold merge_left.
  induction derived as [|r tl IH]; [reflexivity |].
  simpl. rewrite map_app, IH, merge_left_row_single by exact ND. reflexivity.
Qed.

Lemma load_data_unique_lookup_witness :
  exists df,
    load_data (fs_with issues_with_sentinels)
      "data/issues.csv" "data/resolutions.csv" = Ok df /\
    map issue_of df = filter above_floor issues_with_sentinels.
Proof.
  destruct (load_data (fs_with issues_with_sentinels)
              "data/issues.csv" "data/resolutions.csv") as [df|e] eqn:E.
  - exists df. split; [reflexivity |].
    apply (load_data_unique_lookup (fs_with issues_with_sentinels)
             "data/issues.csv" "data/resolutions.csv"
             issues_with_sentinels lookup_sample df eq_refl eq_refl);
      [| exact E].
    repeat constructor; simpl; intuition discriminate.
  - vm_compute in E. discriminate E.
Defined.

(** X3. The resolution name of a cleaned row is the key of a lookup row
    whose [id] is the row's resolution code; it is missing exactly when the
    code is missing or matches no lookup row. *)
Theorem load_data_resolution_names
    (fs : filesystem) (issues_csv resolutions_csv : string)
    (resolutions : list Resolution.t) (df : DataFrame) :
  fs resolutions_csv = Some (ResolutionsTable resolutions) ->
  load_data fs issues_csv resolutions_csv = Ok df ->
  Forall (fun r =>
    match Row.resolution_name r with
    | Some k => exists m, In m resolutions /\
                  Row.resolution r = Some (Resolution.id m) /\
                  Resolution.key m = k
    | None => forall m, In m resolutions ->
                Row.resolution r <> Some (Resolution.id m)
    end) df.
Proof.
  intros Hr H.
  destruct (load_data_inv _ _ _ _ H) as (issues & rs & derived & _ & Hr' & _ & ->).
  rewrite Hr in Hr'. injection Hr' as <-.
  apply Forall_forall. intros r' Hin.
  apply merge_left_In in Hin. destruct Hin as (r & _ & Hin).
  unfold merge_left_row in Hin.
  destruct (matches (Row.resolution r) resolutions) as [|m0 ms] eqn:Em.
  - destruct Hin as [<-|[]]. simpl.
    intros m Hm Hcode. unfold matches in Em. rewrite Hcode in Em.
    assert (Hf : In m (filter (fun x => Resolution.id x =? Resolution.id m) resolutions)).
    { apply filter_In. split; [exact Hm | apply Z.eqb_refl]. }
    rewrite Em in Hf. destruct Hf.
  - apply in_map_iff in Hin. destruct Hin as (m & <- & Hm). simpl.
    rewrite <- Em in Hm. unfold matches in Hm.
    destruct (Row.resolution r) as [c|]; [| destruct Hm].
    apply filter_In in Hm. destruct Hm as [Hm Heq]. apply Z.eqb_eq in Heq.
    exists m. repeat split; [exact Hm | now rewrite Heq].
Qed.

Lemma load_data_resolution_names_witness :
  exists df,
    load_data (fs_with issues_with_sentinels)
      "data/issues.csv" "data/resolutions.csv" = Ok df /\
    map Row.resolution_name df = [Some "Fixed"%string; None] /\
    Forall (fun r =>
      match Row.resolution_name r with
      | Some k => exists m, In m lookup_sample /\
                    Row.resolution r = Some (Resolution.id m) /\
                    Resolution.key m = k
      | None => forall m, In m lookup_sample ->
                  Row.resolution r <> Some (Resolution.id m)
      end) df.
Proof.
  destruct (load_data (fs_with issues_with_sentinels)
              "data/issues.csv" "data/resolutions.csv") as [df|e] eqn:E.
  - exists df. split; [reflexivity |]. split.
    + vm_compute in E. injection E as <-. reflexivity.
    + exact (load_data_resolution_names (fs_with issues_with_sentinels)
               "data/issues.csv" "data/resolutions.csv"
               lookup_sample df eq_refl E).
  - vm_compute in E. discriminate E.
Defined.





(** X5. With both files in place and every creation instant
    representable, [load_data] returns a table. *)
Theorem load_data_returns
    (fs : filesystem) (issues_csv resolutions_csv : string)
    (issues : list Issue.t) (resolutions : list Resolution.t) :
  fs issues_csv = Some (IssuesTable issues) ->
  fs resolutions_csv = Some (ResolutionsTable resolutions) ->
  Forall (fun i => Issue.created i * 1000000 <= timestamp_max) issues ->
  exists df, load_data fs issues_csv resolutions_csv = Ok df.
Proof.
  intros Hi Hr Hall. unfold load_data, read_csv. rewrite Hi, Hr. simpl.
  destruct (mapM_derive_ok (filter (fun i => epoch_floor <? Issue.created i) issues))
    as [rows Hrows].
  - apply Forall_forall. intros i Hin. apply filter_In in Hin.
    destruct Hin as [Hin Hlt]. apply Z.ltb_lt in Hlt.
    pose proof (proj1 (Forall_forall _ _) Hall i Hin) as Hmax.
    unfold to_datetime, timestamp_min, timestamp_max, epoch_floor in *.
    assert (B : (- 9223372036854775807 <=? Issue.created i * 1000000)
                && (Issue.created i * 1000000 <=? 9223372036854775807) = true).
    { apply andb_true_intro. split; apply Z.leb_le; lia. }
    rewrite B. discriminate.
  - rewrite Hrows. simpl. eexists. reflexivity.
Qed.

Lemma load_data_returns_witness :
  exists df,
    load_data (fs_with issues_with_sentinels)
      "data/issues.csv" "data/resolutions.csv" = Ok df.
Proof.
  apply (load_data_returns (fs_with issues_with_sentinels)
           "data/issues.csv" "data/resolutions.csv"
           issues_with_sentinels lookup_sample eq_refl eq_refl).
  repeat constructor; vm_compute; discriminate.
Defined.



(** ** More on the scalar metrics *)

(** The elapsed days of the resolved subset are numbers, none negative. *)
Lemma resolved_days_some (df : DataFrame) :
  Forall (fun d => exists q, d = Some q /\ (0 <= q)%Q)
    (days_column (resolved_subset df)).
Proof.
  unfold days_column, resolved_subset.
  apply Forall_forall. intros d Hd.
  apply in_map_iff in Hd. destruct Hd as (r & <- & Hr).
  apply filter_In in Hr. destruct Hr as [_ Hp].
  apply andb_prop in Hp. destruct Hp as [_ Hge].
  destruct (Row.days_to_resolve r) as [q|]; simpl in Hge; [| discriminate Hge].
  exists q. split; [reflexivity |]. apply Qle_bool_iff in Hge. exact Hge.
Qed.

Lemma len_days_column (df : DataFrame) : len (days_column df) = len df.
Proof. unfold days_column. apply len_map. Qed.

Lemma count_true_le_len {A : Type} (f : A -> bool) (l : list A) :
  0 <= count_true (map f l) <= len l.
Proof.
  unfold count_true. split; [apply len_nonneg |].
  rewrite <- (len_map f l). apply len_filter_le.
Qed.


Lemma share_between (c n : Z) :
  0 < n -> 0 <= c <= n -> fin_between 0 100 (fmul (np_truediv c n) 100).
Proof.
  intros Hn [Hc0 Hcn]. rewrite np_truediv_pos by exact Hn.
  assert (HnQ : (0 < inject_Z n)%Q)
    by (change 0%Q with (inject_Z 0); rewrite <- Zlt_Qlt; exact Hn).
  assert (Hc0Q : (0 <= inject_Z c)%Q)
    by (change 0%Q with (inject_Z 0); rewrite <- Zle_Qle; exact Hc0).
  assert (HcnQ : (inject_Z c <= inject_Z n)%Q) by (rewrite <- Zle_Qle; exact Hcn).
  assert (H0 : (0 <= inject_Z c / inject_Z n)%Q)
    by (apply Qle_shift_div_l; [exact HnQ | lra]).
  assert (H1 : (inject_Z c / inject_Z n <= 1)%Q)
    by (apply Qle_shift_div_r; [exact HnQ | lra]).
  eexists. split; [reflexivity |].
  change (inject_Z 100) with 100%Q. split; lra.
Qed.

Lemma cell_gt_anti (d : option Q) (a b : Z) :
  a <= b -> cell_gt d b = true -> cell_gt d a = true.
Proof.
  intros Hab. destruct d as [q|]; simpl; [| discriminate].
  rewrite !negb_true_iff. intros H.
  destruct (Qle_bool q (inject_Z a)) eqn:E; [| reflexivity].
  apply Qle_bool_iff in E.
  assert (Hb : (q <= inject_Z b)%Q).
  { apply Qle_trans with (inject_Z a); [exact E |]. rewrite <- Zle_Qle. exact Hab. }
  apply Qle_bool_iff in Hb. congruence.
Qed.



(** X8. With a non-empty resolved subset, the five SLA percentages and the
    two overrun percentages are numbers between 0 and 100, and
    [long_90pct] is at most [long_30pct]. *)
Theorem percentages_within_bounds (df : DataFrame) :
  resolved_subset df <> [] ->
  exists m, calculate_metrics df = Ok m /\
    fin_between 0 100 (Metrics.sla_1day m) /\
    fin_between 0 100 (Metrics.sla_3day m) /\
    fin_between 0 100 (Metrics.sla_7day m) /\
    fin_between 0 100 (Metrics.sla_14day m) /\
    fin_between 0 100 (Metrics.sla_30day m) /\
    fin_between 0 100 (Metrics.long_30pct m) /\
    fin_between 0 100 (Metrics.long_90pct m) /\
    fle (Metrics.long_90pct m) (Metrics.long_30pct m).
Proof.
  intros H. pose proof (len_pos _ H) as Hn.
  unfold calculate_metrics.
  rewrite py_truediv_ok
    by (rewrite len_zero_iff; apply resolved_subset_nonempty; exact H).
  simpl. eexists. split; [reflexivity |]. simpl.
  assert (Hb : forall f : option Q -> bool,
             0 <= count_true (map f (days_column (resolved_subset df)))
             <= len (resolved_subset df)).
  { intros f. pose proof (count_true_le_len f (days_column (resolved_subset df))) as B.
    rewrite len_days_column in B. exact B. }
  repeat split; try (apply share_between; [exact Hn | apply Hb]).
  apply share_mono; [exact Hn |].
  apply count_true_mono. intros d. apply cell_gt_anti. lia.
Qed.

Lemma percentages_within_bounds_witness :
  exists m, calculate_metrics table_mixed = Ok m /\
    fin_between 0 100 (Metrics.sla_1day m) /\
    fin_between 0 100 (Metrics.sla_3day m) /\
    fin_between 0 100 (Metrics.sla_7day m) /\
    fin_between 0 100 (Metrics.sla_14day m) /\
    fin_between 0 100 (Metrics.sla_30day m) /\
    fin_between 0 100 (Metrics.long_30pct m) /\
    fin_between 0 100 (Metrics.long_90pct m) /\
    fle (Metrics.long_90pct m) (Metrics.long_30pct m).
Proof.
  apply (percentages_within_bounds table_mixed).
  vm_compute. discriminate.
Defined.

(** ** Extremes, mean and order statistics of a column *)

Lemma Qmin2_le (x a : Q) : (Qmin2 x a <= x /\ Qmin2 x a <= a)%Q.
Proof.
  unfold Qmin2. destruct (Qle_bool x a) eqn:E.
  - apply Qle_bool_iff in E. split; [apply Qle_refl | exact E].
  - split; [| apply Qle_refl].
    destruct (Qlt_le_dec a x) as [L|L]; [apply Qlt_le_weak; exact L |].
    apply Qle_bool_iff in L. congruence.
Qed.

Lemma Qmax2_ge (x a : Q) : (x <= Qmax2 x a /\ a <= Qmax2 x a)%Q.
Proof.
  unfold Qmax2. destruct (Qle_bool x a) eqn:E.
  - apply Qle_bool_iff in E. split; [exact E | apply Qle_refl].
  - split; [apply Qle_refl |].
    destruct (Qlt_le_dec a x) as [L|L]; [apply Qlt_le_weak; exact L |].
    apply Qle_bool_iff in L. congruence.
Qed.

Lemma fold_min_acc (tl : list Q) (x : Q) : (fold_left Qmin2 tl x <= x)%Q.
Proof.
  revert x. induction tl as [|a tl IH]; intros x; simpl; [apply Qle_refl |].
  eapply Qle_trans; [apply IH | apply Qmin2_le].
Qed.

Lemma fold_max_acc (tl : list Q) (x : Q) : (x <= fold_left Qmax2 tl x)%Q.
Proof.
  revert x. induction tl as [|a tl IH]; intros x; simpl; [apply Qle_refl |].
  eapply Qle_trans; [| apply IH]. apply Qmax2_ge.
Qed.

Lemma fold_min_le (tl : list Q) (x y : Q) :
  In y (x :: tl) -> (fold_left Qmin2 tl x <= y)%Q.
Proof.
  revert x. induction tl as [|a tl IH]; intros x Hin; simpl.
  - destruct Hin as [<-|[]]. apply Qle_refl.
  - destruct (Qmin2_le x a) as [Hx Ha].
    destruct Hin as [<-|[<-|Hin]].
    + eapply Qle_trans; [apply fold_min_acc | exact Hx].
    + eapply Qle_trans; [apply fold_min_acc | exact Ha].
    + apply IH. right. exact Hin.
Qed.

Lemma fold_max_ge (tl : list Q) (x y : Q) :
  In y (x :: tl) -> (y <= fold_left Qmax2 tl x)%Q.
Proof.
  revert x. induction tl as [|a tl IH]; intros x Hin; simpl.
  - destruct Hin as [<-|[]]. apply Qle_refl.
  - destruct (Qmax2_ge x a) as [Hx Ha].
    destruct Hin as [<-|[<-|Hin]].
    + eapply Qle_trans; [exact Hx | apply fold_max_acc].
    + eapply Qle_trans; [exact Ha | apply fold_max_acc].
    + apply IH. right. exact Hin.
Qed.

Lemma fold_min_In (tl : list Q) (x : Q) : In (fold_left Qmin2 tl x) (x :: tl).
Proof.
  revert x. induction tl as [|a tl IH]; intros x; simpl; [now left |].
  destruct (IH (Qmin2 x a)) as [E|Hin]; [| right; right; exact Hin].
  rewrite <- E. unfold Qmin2. destruct (Qle_bool x a); [now left | right; now left].
Qed.

Lemma Qsum_bounds (v : list Q) (lo hi : Q) :
  (forall y, In y v -> lo <= y /\ y <= hi)%Q ->
  (inject_Z (len v) * lo <= Qsum v /\ Qsum v <= inject_Z (len v) * hi)%Q.
Proof.
  induction v as [|x tl IH]; intros H.
  - unfold len. simpl. change (inject_Z 0) with 0%Q. split; lra.
  - rewrite len_cons, inject_Z_plus. change (inject_Z 1) with 1%Q.
    destruct IH as [IH1 IH2]; [intros y Hy; apply H; now right |].
    destruct (H x (or_introl eq_refl)) as [Hx1 Hx2].
    unfold Qsum in *. simpl fold_right. split; lra.
Qed.

Lemma mean_of_bounds (v : list Q) (lo hi : Q) :
  v <> [] ->
  (forall y, In y v -> lo <= y /\ y <= hi)%Q ->
  (lo <= mean_of v /\ mean_of v <= hi)%Q.
Proof.
  intros Hv H. destruct (Qsum_bounds v lo hi H) as [H1 H2].
  assert (Hn : (0 < inject_Z (len v))%Q).
  { change 0%Q with (inject_Z 0). rewrite <- Zlt_Qlt. apply len_pos. exact Hv. }
  unfold mean_of. split.
  - apply Qle_shift_div_l; [exact Hn | lra].
  - apply Qle_shift_div_r; [exact Hn | lra].
Qed.

(** An interpolated quantile lies between the first and the last order
    statistic. *)
Lemma quantile_sorted_bounds (v : list Q) (q : Q) :
  ranked v -> v <> [] -> (0 <= q)%Q -> (q <= 1)%Q ->
  (nth 0 v 0 <= quantile_sorted v q /\
   quantile_sorted v q <= nth (List.length v - 1) v 0)%Q.
Proof.
  intros Hr Hv Hq0 Hq1.
  pose proof (len_pos v Hv) as Hn.
  unfold quantile_sorted.
  set (n := len v) in *.
  assert (HN : (0 <= inject_Z (n - 1))%Q).
  { change 0%Q with (inject_Z 0). rewrite <- Zle_Qle. lia. }
  set (N := inject_Z (n - 1)) in *.
  set (pos := (q * N)%Q).
  assert (Hp0 : (0 <= pos)%Q) by (unfold pos; nra).
  assert (HpN : (pos <= N)%Q) by (unfold pos; nra).
  assert (Hlo0 : 0 <= Qfloor pos).
  { rewrite <- (Qfloor_Z 0). apply Qfloor_resp_le. exact Hp0. }
  assert (HloN : Qfloor pos <= n - 1).
  { rewrite <- (Qfloor_Z (n - 1)). apply Qfloor_resp_le. exact HpN. }
  pose proof (Qfloor_le pos) as Hf. pose proof (Qlt_floor pos) as Hc.
  rewrite inject_Z_plus in Hc. change (inject_Z 1) with 1%Q in Hc.
  set (lo := Qfloor pos) in *.
  assert (Hlen : n = Z.of_nat (List.length v)) by reflexivity.
  assert (Hab : (nth (Z.to_nat lo) v 0 <= nth (Z.to_nat (Z.min (lo + 1) (n - 1))) v 0)%Q)
    by (apply Hr; lia).
  assert (H0a : (nth 0 v 0 <= nth (Z.to_nat lo) v 0)%Q) by (apply Hr; lia).
  assert (Hbz : (nth (Z.to_nat (Z.min (lo + 1) (n - 1))) v 0
                 <= nth (List.length v - 1) v 0)%Q) by (apply Hr; lia).
  destruct (interpolation_bounds _ _ (pos - inject_Z lo) Hab) as [Hd Hu];
    [lra | lra |].
  split; [eapply Qle_trans; [exact H0a | exact Hd]
         | eapply Qle_trans; [exact Hu | exact Hbz]].
Qed.

Lemma dropna_In (s : list (option Q)) (q : Q) : In q (dropna s) <-> In (Some q) s.
Proof.
  unfold dropna. rewrite in_flat_map. split.
  - intros (x & Hx & Hq). destruct x as [q'|]; [| destruct Hq].
    destruct Hq as [<-|[]]. exact Hx.
  - intros H. exists (Some q). split; [exact H | now left].
Qed.

(** The reductions of a column with at least one number: all are numbers,
    and the mean, the median and every quantile lie between the minimum
    and the maximum. *)
Lemma column_reductions (days : list (option Q)) :
  dropna days <> [] ->
  exists mn mx av md,
    series_min days = Fin mn /\ series_max days = Fin mx /\
    mean days = Fin av /\ median days = Fin md /\
    In mn (dropna days) /\
    (mn <= av /\ av <= mx)%Q /\ (mn <= md /\ md <= mx)%Q /\
    forall q, (0 <= q)%Q -> (q <= 1)%Q ->
      exists v, quantile days q = Fin v /\ (mn <= v /\ v <= mx)%Q.
Proof.
  intros Hne. unfold series_min, series_max, mean, median, quantile.
  destruct (dropna days) as [|x tl] eqn:E; [contradiction |].
  set (v := x :: tl) in *.
  set (s := sorted Qle_bool v).
  assert (Hs : s <> []) by (intros S; apply sorted_nil_iff in S; discriminate S).
  assert (Hr : ranked s) by apply sorted_ranked.
  assert (Hbnd : forall y, In y v ->
            (fold_left Qmin2 tl x <= y /\ y <= fold_left Qmax2 tl x)%Q).
  { intros y Hy. split; [apply fold_min_le | apply fold_max_ge]; exact Hy. }
  assert (Hsv : forall y, In y s -> In y v).
  { intros y Hy. eapply Permutation_in;
      [apply Permutation_sym, (sorted_perm Qle_bool v) | exact Hy]. }
  assert (Hq : forall q, (0 <= q)%Q -> (q <= 1)%Q ->
            (fold_left Qmin2 tl x <= quantile_sorted s q /\
             quantile_sorted s q <= fold_left Qmax2 tl x)%Q).
  { intros q Hq0 Hq1.
    destruct (quantile_sorted_bounds s q Hr Hs Hq0 Hq1) as [Hlo Hhi].
    assert (Hlen : (0 < List.length s)%nat).
    { destruct s; [contradiction | simpl; lia]. }
    split.
    - eapply Qle_trans; [| exact Hlo].
      apply Hbnd, Hsv, nth_In. exact Hlen.
    - eapply Qle_trans; [exact Hhi |].
      apply Hbnd, Hsv, nth_In. lia. }
  exists (fold_left Qmin2 tl x), (fold_left Qmax2 tl x),
         (mean_of v), (median_sorted s).
  do 4 (split; [reflexivity |]).
  split; [apply fold_min_In |].
  split; [apply (mean_of_bounds v); [discriminate | exact Hbnd] |].
  split.
  - rewrite (median_is_half_quantile s Hs). apply Hq; discriminate.
  - intros q Hq0 Hq1. eexists. split; [reflexivity |]. apply Hq; assumption.
Qed.

(** The time-based entries of the dictionary, as reductions of the column
    of elapsed days of the resolved subset. *)
Lemma calculate_metrics_time_fields (df : DataFrame) :
  df <> [] ->
  exists m, calculate_metrics df = Ok m /\
    Metrics.total m = len df /\
    Metrics.resolved m = len (resolved_subset df) /\
    Metrics.avg_days m = mean (days_column (resolved_subset df)) /\
    Metrics.median_days m = median (days_column (resolved_subset df)) /\
    Metrics.min_days m = series_min (days_column (resolved_subset df)) /\
    Metrics.max_days m = series_max (days_column (resolved_subset df)) /\
    Metrics.std_days m = std (days_column (resolved_subset df)) /\
    Metrics.p25_days m = quantile (days_column (resolved_subset df)) (25 # 100) /\
    Metrics.p75_days m = quantile (days_column (resolved_subset df)) (75 # 100) /\
    Metrics.p90_days m = quantile (days_column (resolved_subset df)) (90 # 100) /\
    Metrics.p95_days m = quantile (days_column (resolved_subset df)) (95 # 100).
Proof.
  intros H. unfold calculate_metrics.
  rewrite py_truediv_ok by (rewrite len_zero_iff; exact H).
  eexists. split; [reflexivity |]. repeat split.
Qed.

Lemma resolved_dropna_nonempty (df : DataFrame) :
  resolved_subset df <> [] -> dropna (days_column (resolved_subset df)) <> [].
Proof.
  intros H E. apply H. apply length_zero_iff_nil.
  rewrite <- resolved_days_dropna, E. reflexivity.
Qed.



Lemma Qsquare_nonneg (d : Q) : (0 <= d * d)%Q.
Proof. nra. Qed.

Lemma Qsum_squares_nonneg (v : list Q) (m : Q) :
  (0 <= Qsum (map (fun x => (x - m) * (x - m)) v))%Q.
Proof.
  induction v as [|x tl IH]; [discriminate |].
  unfold Qsum in *. cbn [map fold_right].
  pose proof (Qsquare_nonneg (x - m)) as Hsq.
  lra.
Qed.

(** X10. The standard deviation needs two resolved issues: on a table with
    rows, [std_days] is NaN exactly when the resolved subset has fewer than
    two rows, and otherwise it is the root of a non-negative number. *)
Theorem std_days_needs_two (df : DataFrame) :
  df <> [] ->
  exists m, calculate_metrics df = Ok m /\
    (Metrics.std_days m = RootNaN <-> len (resolved_subset df) < 2) /\
    (forall v, Metrics.std_days m = Sqrt v -> (0 <= v)%Q).
Proof.
  intros H.
  destruct (calculate_metrics_time_fields df H)
    as (m & Hm & _ & _ & _ & _ & _ & _ & Estd & _).
  exists m. split; [exact Hm |]. rewrite Estd.
  pose proof (resolved_days_dropna df) as Hl.
  unfold len. rewrite <- Hl. unfold std.
  destruct (dropna (days_column (resolved_subset df))) as [|x [|y tl]].
  - simpl. split; [split; [lia | reflexivity] | intros v E; discriminate E].
  - simpl. split; [split; [lia | reflexivity] | intros v E; discriminate E].
  - split.
    + split; [intros E; discriminate E | simpl List.length; lia].
    + intros v E. injection E as <-.
      apply Qle_shift_div_l.
      * change 0%Q with (inject_Z 0). rewrite <- Zlt_Qlt.
        change (0 < len (x :: y :: tl) - 1).
        rewrite !len_cons. pose proof (len_nonneg tl). lia.
      * rewrite Qmult_0_l.
        exact (Qsum_squares_nonneg (x :: y :: tl) (mean_of (x :: y :: tl))).
Qed.

Lemma std_days_needs_two_witness :
  exists m, calculate_metrics table_negative = Ok m /\
    (Metrics.std_days m = RootNaN <-> len (resolved_subset table_negative) < 2) /\
    (forall v, Metrics.std_days m = Sqrt v -> (0 <= v)%Q).
Proof.
  apply (std_days_needs_two table_negative).
  vm_compute. discriminate.
Defined.

(** X11. On a table with rows and an empty resolved subset, the minimum,
    the maximum and the standard deviation are NaN, and so are the five SLA
    percentages and the two overrun percentages: their divisions by a zero
    count give NaN instead of raising. *)
Theorem empty_resolved_subset_percentages (df : DataFrame) :
  df <> [] ->
  resolved_subset df = [] ->
  exists m, calculate_metrics df = Ok m /\
    Metrics.resolved m = 0 /\ Metrics.open m = Metrics.total m /\
    Metrics.resolution_rate m = Fin (0 / inject_Z (len df) * inject_Z 100) /\
    is_nan (Metrics.min_days m) /\ is_nan (Metrics.max_days m) /\
    Metrics.std_days m = RootNaN /\
    is_nan (Metrics.sla_1day m) /\ is_nan (Metrics.sla_3day m) /\
    is_nan (Metrics.sla_7day m) /\ is_nan (Metrics.sla_14day m) /\
    is_nan (Metrics.sla_30day m) /\
    is_nan (Metrics.long_30pct m) /\ is_nan (Metrics.long_90pct m).
Proof.
  intros Hdf Hres. unfold calculate_metrics.
  rewrite py_truediv_ok by (rewrite len_zero_iff; exact Hdf).
  rewrite Hres. simpl.
  eexists. split; [reflexivity |].
  simpl. unfold is_nan. repeat split.
  change (len (@nil Row.t)) with 0. lia.
Qed.

Lemma empty_resolved_subset_percentages_witness :
  exists m, calculate_metrics table_open = Ok m /\
    Metrics.resolved m = 0 /\ Metrics.open m = Metrics.total m /\
    Metrics.resolution_rate m = Fin (0 / inject_Z (len table_open) * inject_Z 100) /\
    is_nan (Metrics.min_days m) /\ is_nan (Metrics.max_days m) /\
    Metrics.std_days m = RootNaN /\
    is_nan (Metrics.sla_1day m) /\ is_nan (Metrics.sla_3day m) /\
    is_nan (Metrics.sla_7day m) /\ is_nan (Metrics.sla_14day m) /\
    is_nan (Metrics.sla_30day m) /\
    is_nan (Metrics.long_30pct m) /\ is_nan (Metrics.long_90pct m).
Proof.
  apply (empty_resolved_subset_percentages table_open).
  - vm_compute. discriminate.
  - vm_compute. reflexivity.
Defined.

(** ** More on the per-category breakdown *)

Lemma filter_twice {A : Type} (f g : A -> bool) (l : list A) :
  filter g (filter f l) = filter (fun x => f x && g x) l.
Proof.
  induction l as [|x tl IH]; [reflexivity |].
  simpl. destruct (f x); simpl; [destruct (g x) |]; rewrite IH; reflexivity.
Qed.

Lemma filter_swap {A : Type} (f g : A -> bool) (l : list A) :
  filter g (filter f l) = filter f (filter g l).
Proof.
  rewrite !filter_twice. apply filter_ext. intros x. apply andb_comm.
Qed.

Lemma len_filter_and {A : Type} (f g : A -> bool) (l : list A) :
  len (filter (fun x => f x && g x) l) <= len (filter f l).
Proof.
  rewrite <- filter_twice. apply len_filter_le.
Qed.

(** The rows with a valid time of a category are the resolved subset of
    that category's rows. *)
Lemma cat_with_time_is_resolved_subset (l : DataFrame) :
  filter (fun r => cell_ge (Row.days_to_resolve r) 0)
    (filter (fun r => notna (Row.resolved_dt r)) l)
  = resolved_subset l.
Proof. apply filter_twice. Qed.

Lemma category_row_category (df : DataFrame) (keys : list string) :
  map CategoryMetrics.category (map (category_row df) keys) = keys.
Proof.
  rewrite map_map. simpl. apply map_id.
Qed.

Lemma categories_NoDup (df : DataFrame) :
  NoDup (sorted String.leb (unique (map Row.category df))).
Proof.
  eapply Permutation_NoDup; [apply sorted_perm | apply unique_NoDup].
Qed.

(** X12. The per-category resolved counts add up to the number of rows
    whose resolution instant is not null; the overall [resolved] of
    [calculate_metrics] never exceeds that sum. *)
Theorem category_resolved_sum (df : DataFrame) :
  exists cms, get_metrics_by_category df = Ok cms /\
    sum_Z (map CategoryMetrics.resolved cms)
      = len (filter (fun r => notna (Row.resolved_dt r)) df) /\
    forall m, calculate_metrics df = Ok m ->
      Metrics.resolved m <= sum_Z (map CategoryMetrics.resolved cms).
Proof.
  eexists. split; [apply get_metrics_by_category_ok |].
  assert (E : sum_Z (map CategoryMetrics.resolved
                       (map (category_row df)
                          (sorted String.leb (unique (map Row.category df)))))
              = len (filter (fun r => notna (Row.resolved_dt r)) df)).
  { rewrite map_map. simpl.
    rewrite (map_ext _
      (fun k => len (in_category k (filter (fun r => notna (Row.resolved_dt r)) df))))
      by (intros k; unfold in_category; now rewrite filter_swap).
    apply totals_sum; [apply categories_NoDup |].
    intros r Hr. apply filter_In in Hr. destruct Hr as [Hr _].
    apply categories_In. apply in_map. exact Hr. }
  split; [exact E |].
  intros m Hm. rewrite E.
  unfold calculate_metrics in Hm.
  destruct (py_truediv (len (resolved_subset df)) (len df)) as [rate|e];
    simpl in Hm; [| discriminate Hm].
  injection Hm as <-. simpl.
  unfold resolved_subset. apply len_filter_and.
Qed.

Section SortedByLeb.
Context {A : Type} (leb : A -> A -> bool).
Hypothesis leb_total : forall a b, leb a b = true \/ leb b a = true.

Lemma insert_HdRel (y x : A) (l : list A) :
  leb y x = true ->
  HdRel (fun a b => leb a b = true) y l ->
  HdRel (fun a b => leb a b = true) y (insert leb x l).
Proof.
  intros Hyx Hl. destruct l as [|z tl]; simpl.
  - constructor. exact Hyx.
  - destruct (leb x z); constructor; [exact Hyx |].
    inversion Hl; assumption.
Qed.

Lemma insert_Sorted (x : A) (l : list A) :
  Sorted (fun a b => leb a b = true) l ->
  Sorted (fun a b => leb a b = true) (insert leb x l).
Proof.
  induction 1 as [|y tl Hs IH Hhd]; simpl.
  - repeat constructor.
  - destruct (leb x y) eqn:E.
    + constructor; [constructor; assumption | constructor; exact E].
    + constructor; [exact IH |].
      apply insert_HdRel; [| exact Hhd].
      destruct (leb_total x y) as [T|T]; [congruence | exact T].
Qed.

Lemma sorted_Sorted (l : list A) :
  Sorted (fun a b => leb a b = true) (sorted leb l).
Proof.
  induction l as [|x tl IH]; simpl; [constructor | apply insert_Sorted; exact IH].
Qed.
End SortedByLeb.

Lemma leb_neq_ltb (a b : string) :
  String.leb a b = true -> a <> b -> String.ltb a b = true.
Proof.
  unfold String.leb, String.ltb. intros Hle Hne.
  destruct (String.compare a b) eqn:C; [| reflexivity | discriminate Hle].
  apply String.compare_eq_iff in C. contradiction.
Qed.

Lemma Sorted_strict (l : list string) :
  Sorted (fun a b => String.leb a b = true) l -> NoDup l ->
  Sorted (fun a b => String.ltb a b = true) l.
Proof.
  induction 1 as [|x tl Hs IH Hhd]; intros ND; [constructor |].
  inversion ND as [|? ? Hnotin ND']; subst.
  constructor; [apply IH; exact ND' |].
  destruct Hhd as [|y tl' Hxy]; constructor.
  apply leb_neq_ltb; [exact Hxy |].
  intros ->. apply Hnotin. now left.
Qed.

(** X13. The breakdown has one row per category present in the table, and
    its rows come in strictly ascending order of category name. *)
Theorem categories_strictly_ascending (df : DataFrame) :
  exists cms, get_metrics_by_category df = Ok cms /\
    Sorted (fun a b => String.ltb a b = true)
      (map CategoryMetrics.category cms) /\
    forall c, In c (map CategoryMetrics.category cms) <->
              In c (map Row.category df).
Proof.
  eexists. split; [apply get_metrics_by_category_ok |].
  rewrite category_row_category. split.
  - apply Sorted_strict; [| apply categories_NoDup].
    apply sorted_Sorted. exact String.leb_total.
  - intros c. apply categories_In.
Qed.

(** A column of the resolved subset reduces to non-negative numbers. *)
Lemma resolved_reductions_nonneg (l : DataFrame) :
  resolved_subset l <> [] ->
  exists av md p,
    mean (days_column (resolved_subset l)) = Fin av /\
    median (days_column (resolved_subset l)) = Fin md /\
    quantile (days_column (resolved_subset l)) (95 # 100) = Fin p /\
    (0 <= av)%Q /\ (0 <= md)%Q /\ (0 <= p)%Q.
Proof.
  intros H.
  destruct (column_reductions _ (resolved_dropna_nonempty l H))
    as (mn & mx & av & md & _ & _ & Hav & Hmd & Hin & Bav & Bmd & Hq).
  assert (Hmn : (0 <= mn)%Q).
  { apply dropna_In in Hin.
    destruct (proj1 (Forall_forall _ _) (resolved_days_some l) _ Hin)
      as (q & Eq & Hq0).
    injection Eq as ->. exact Hq0. }
  destruct (Hq (95 # 100)) as (p & Hp & Bp); [discriminate | discriminate |].
  exists av, md, p.
  split; [exact Hav |]. split; [exact Hmd |]. split; [exact Hp |].
  split; [| split]; lra.
Qed.

(** X14. Every row of the breakdown is free of NaN: the resolved count is
    between 0 and the total, the resolution rate is a number between 0 and
    100, and the mean, the median and the 95th percentile are non-negative
    numbers (0 when the category has no row with a valid time). *)
Theorem category_rows_are_numbers (df : DataFrame) :
  exists cms, get_metrics_by_category df = Ok cms /\
    Forall (fun c =>
      0 <= CategoryMetrics.resolved c <= CategoryMetrics.total c /\
      fin_between 0 100 (CategoryMetrics.resolution_rate c) /\
      (exists q, CategoryMetrics.avg_days c = Fin q /\ (0 <= q)%Q) /\
      (exists q, CategoryMetrics.median_days c = Fin q /\ (0 <= q)%Q) /\
      (exists q, CategoryMetrics.p95_days c = Fin q /\ (0 <= q)%Q)) cms.
Proof.
  eexists. split; [apply get_metrics_by_category_ok |].
  apply Forall_forall. intros cm Hcm.
  apply in_map_iff in Hcm. destruct Hcm as [c [<- Hc]].
  apply categories_In in Hc.
  pose proof (in_category_nonempty df c Hc) as Hpos.
  unfold category_row.
  cbn [CategoryMetrics.resolved CategoryMetrics.total
       CategoryMetrics.resolution_rate CategoryMetrics.avg_days
       CategoryMetrics.median_days CategoryMetrics.p95_days].
  rewrite cat_with_time_is_resolved_subset.
  set (g := in_category c df) in *.
  assert (Hres : 0 <= len (filter (fun r => notna (Row.resolved_dt r)) g) <= len g)
    by (split; [apply len_nonneg | apply len_filter_le]).
  split; [exact Hres |].
  split.
  { pose proof (share_between _ _ Hpos Hres) as B.
    rewrite np_truediv_pos in B by exact Hpos. exact B. }
  destruct (Z.ltb_spec 0 (len (resolved_subset g))) as [Hn|Hn].
  - assert (Hne : resolved_subset g <> []).
    { intros E. rewrite E in Hn. unfold len in Hn. simpl in Hn. lia. }
    destruct (resolved_reductions_nonneg g Hne)
      as (av & md & p & -> & -> & -> & Hav & Hmd & Hp).
    repeat split; eexists; (split; [reflexivity | assumption]).
  - repeat split; exists 0%Q; (split; [reflexivity | apply Qle_refl]).
Qed.

(** X15. Each row of the breakdown agrees with [calculate_metrics] run on
    the rows of that category alone: that call returns, the totals are
    equal, the overall [resolved] is at most the category's, and when the
    category has a resolved subset the mean, the median and the 95th
    percentile are the same. *)
Theorem category_row_matches_metrics (df : DataFrame) :
  exists cms, get_metrics_by_category df = Ok cms /\
    Forall (fun c =>
      exists m,
        calculate_metrics (in_category (CategoryMetrics.category c) df) = Ok m /\
        CategoryMetrics.total c = Metrics.total m /\
        Metrics.resolved m <= CategoryMetrics.resolved c /\
        (0 < Metrics.resolved m ->
         CategoryMetrics.avg_days c = Metrics.avg_days m /\
         CategoryMetrics.median_days c = Metrics.median_days m /\
         CategoryMetrics.p95_days c = Metrics.p95_days m)) cms.
Proof.
  eexists. split; [apply get_metrics_by_category_ok |].
  apply Forall_forall. intros cm Hcm.
  apply in_map_iff in Hcm. destruct Hcm as [c [<- Hc]].
  apply categories_In in Hc.
  pose proof (in_category_nonempty df c Hc) as Hpos.
  assert (Hne : in_category c df <> []).
  { intros E. rewrite E in Hpos. unfold len in Hpos. simpl in Hpos. lia. }
  destruct (calculate_metrics_time_fields _ Hne)
    as (m & Hm & Etot & Eres & Eavg & Emed & _ & _ & _ & _ & _ & _ & E95).
  unfold category_row.
  cbn [CategoryMetrics.resolved CategoryMetrics.total CategoryMetrics.category
       CategoryMetrics.avg_days CategoryMetrics.median_days
       CategoryMetrics.p95_days].
  rewrite cat_with_time_is_resolved_subset.
  exists m. split; [exact Hm |].
  rewrite Etot, Eres, Eavg, Emed, E95.
  split; [reflexivity |].
  split; [unfold resolved_subset; apply len_filter_and |].
  intros Hn. apply Z.ltb_lt in Hn. rewrite Hn. repeat split.
Qed.

(** ** Chart data against the report *)

(** X16. Whenever [calculate_metrics] returns, the five percentages drawn
    by [plot_sla_chart] are its five SLA entries, threshold by threshold. *)
Theorem sla_chart_matches_metrics (df : DataFrame) (m : Metrics.t) :
  calculate_metrics df = Ok m ->
  plot_sla_chart_percentages df =
    [Metrics.sla_1day m; Metrics.sla_3day m; Metrics.sla_7day m;
     Metrics.sla_14day m; Metrics.sla_30day m] /\
  Forall (fun c => 0 <= c <= Metrics.resolved m) (plot_sla_chart_counts df).
Proof.
  unfold calculate_metrics. intros H.
  destruct (py_truediv (len (resolved_subset df)) (len df)) as [rate|e];
    simpl in H; [| discriminate H].
  injection H as <-. split; [reflexivity |].
  unfold plot_sla_chart_counts, thresholds. cbn [Metrics.resolved map].
  repeat constructor;
    try apply count_true_le_len;
    rewrite <- (len_days_column (resolved_subset df)); apply count_true_le_len.
Qed.

Lemma sla_chart_matches_metrics_witness :
  exists m, calculate_metrics table_mixed = Ok m /\
    plot_sla_chart_percentages table_mixed =
      [Metrics.sla_1day m; Metrics.sla_3day m; Metrics.sla_7day m;
       Metrics.sla_14day m; Metrics.sla_30day m] /\
    Forall (fun c => 0 <= c <= Metrics.resolved m) (plot_sla_chart_counts table_mixed).
Proof.
  destruct (calculate_metrics table_mixed) as [m|e] eqn:E.
  - exists m. split; [reflexivity |].
    exact (sla_chart_matches_metrics table_mixed m E).
  - vm_compute in E. discriminate E.
Defined.

Lemma count_true_filter {A : Type} (f : A -> bool) (l : list A) :
  count_true (map f l) = len (filter f l).
Proof.
  unfold count_true, len. induction l as [|x tl IH]; [reflexivity |].
  simpl. destruct (f x); simpl; lia.
Qed.

(** X17. The two series drawn by [plot_category_distribution] are the
    [total] and [resolution_rate] columns of the breakdown, category by
    category and in the same order. *)
Theorem category_chart_matches_breakdown (df : DataFrame) :
  exists cms, get_metrics_by_category df = Ok cms /\
    category_counts df =
      map (fun c => (CategoryMetrics.category c, CategoryMetrics.total c)) cms /\
    resolution_rates df =
      map (fun c => (CategoryMetrics.category c, CategoryMetrics.resolution_rate c)) cms.
Proof.
  eexists. split; [apply get_metrics_by_category_ok |].
  unfold category_counts, resolution_rates, groupby_category.
  rewrite !map_map. split.
  - apply map_ext. intros k. reflexivity.
  - apply map_ext_in. intros k Hk. apply categories_In in Hk.
    pose proof (in_category_nonempty df k Hk) as Hpos.
    cbn [fst snd category_row CategoryMetrics.category CategoryMetrics.resolution_rate].
    fold (in_category k df).
    rewrite count_true_filter, np_truediv_pos by exact Hpos. reflexivity.
Qed.

(** ** Speed classes *)

Lemma indicator_seq (k0 a n : nat) :
  sum_Z (map (fun k => if (k0 =? k)%nat then 1 else 0) (seq a n))
  = if ((a <=? k0) && (k0 <? a + n))%nat then 1 else 0.
Proof.
  revert a. induction n as [|n IH]; intros a.
  - simpl. destruct (Nat.leb_spec a k0), (Nat.ltb_spec k0 (a + 0)); simpl;
      try reflexivity; lia.
  - cbn [seq map]. rewrite sum_Z_cons, IH.
    destruct (Nat.eqb_spec k0 a), (Nat.leb_spec (S a) k0),
             (Nat.ltb_spec k0 (S a + n)), (Nat.leb_spec a k0),
             (Nat.ltb_spec k0 (a + S n)); simpl; try reflexivity; lia.
Qed.

(** Labelled rows are counted once: the per-label counts add up to the
    number of rows. *)
Lemma label_counts_sum {A : Type} (f : A -> option nat) (n : nat) (l : list A) :
  (forall x, In x l -> exists k, f x = Some k /\ (k < n)%nat) ->
  sum_Z (map (fun k => len (filter (fun x => option_nat_eqb (f x) k) l)) (seq 0 n))
  = len l.
Proof.
  induction l as [|x tl IH]; intros H.
  - clear H. induction (seq 0 n) as [|k ks IHk]; [reflexivity |].
    rewrite map_cons, sum_Z_cons, IHk. reflexivity.
  - destruct (H x (or_introl eq_refl)) as (k0 & Ek & Hk).
    assert (E : forall ks,
              sum_Z (map (fun k => len (filter (fun y => option_nat_eqb (f y) k) (x :: tl))) ks)
              = sum_Z (map (fun k => if (k0 =? k)%nat then 1 else 0) ks)
                + sum_Z (map (fun k => len (filter (fun y => option_nat_eqb (f y) k) tl)) ks)).
    { induction ks as [|k ks IHk]; [reflexivity |].
      rewrite !map_cons, !sum_Z_cons, IHk.
      cbn [filter]. rewrite Ek. cbn [option_nat_eqb].
      destruct (k0 =? k)%nat; [rewrite len_cons |]; lia. }
    rewrite E, IH by (intros y Hy; apply H; now right).
    rewrite indicator_seq.
    destruct (Nat.leb_spec 0 k0), (Nat.ltb_spec k0 (0 + n)); simpl;
      try lia; rewrite len_cons; reflexivity.
Qed.

(** A number of days between 0 and 15 falls in one of the five classes. *)
Lemma cut_bins_simple (q : Q) :
  (0 <= q)%Q -> (q <= 15)%Q ->
  exists k, cut bins_simple (Some q) = Some k /\ (k < 5)%nat.
Proof.
  intros H0 H15. unfold cut, bins_simple. cbn [hd].
  destruct (Qeq_bool q 0) eqn:E0.
  - exists 0%nat. split; [reflexivity | lia].
  - assert (Hpos : (0 < q)%Q).
    { apply Qeq_bool_neq in E0. apply Qle_lteq in H0.
      destruct H0 as [L|L]; [exact L | symmetry in L; contradiction]. }
    unfold searchsorted_left. cbn [filter].
    assert (B0 : Qle_bool q 0 = false).
    { destruct (Qle_bool q 0) eqn:B; [| reflexivity].
      apply Qle_bool_iff in B. lra. }
    assert (B15 : Qle_bool q 15 = true) by (apply Qle_bool_iff; exact H15).
    rewrite B0, B15. cbn [negb].
    destruct (Qle_bool q (2 / 24)), (Qle_bool q (12 / 24)),
             (Qle_bool q 3), (Qle_bool q 7); cbn;
      eexists; (split; [reflexivity | lia]).
Qed.

(** X18. The five bars of the speed-class chart account for every row it
    keeps: their counts add up to the number of resolved rows with at most
    15 elapsed days, rows with exactly 0 days included. *)
Theorem counts_simple_sum (df : DataFrame) :
  sum_Z (counts_simple df) = len (resolved_vis df).
Proof.
  unfold counts_simple.
  change (List.length bins_simple - 1)%nat with 5%nat.
  apply (label_counts_sum (fun r => cut bins_simple (Row.days_to_resolve r))).
  intros r Hr. unfold resolved_vis in Hr.
  apply filter_In in Hr. destruct Hr as [Hr H15].
  assert (Hd : In (Row.days_to_resolve r) (days_column (resolved_subset df))).
  { unfold days_column. apply in_map. exact Hr. }
  destruct (proj1 (Forall_forall _ _) (resolved_days_some df) _ Hd)
    as (q & Eq & H0).
  rewrite Eq in *. simpl in H15. apply Qle_bool_iff in H15.
  apply cut_bins_simple; assumption.
Qed.

(** ** More on the top-level flow *)

(** X19. When both files are in place but no issue is above the validity
    floor, the cleaned table is empty and [main] lets the
    ZeroDivisionError of [calculate_metrics] escape: that call is outside
    both of its [try] blocks. *)
Theorem main_empty_cleaned_table
    (render : DataFrame -> string -> list string -> bool -> result unit)
    (fs : filesystem) (issues : list Issue.t) (resolutions : list Resolution.t) :
  fs "data/issues.csv"%string = Some (IssuesTable issues) ->
  fs "data/resolutions.csv"%string = Some (ResolutionsTable resolutions) ->
  Forall (fun i => Issue.created i <= 1000000000000) issues ->
  load_data fs "data/issues.csv" "data/resolutions.csv" = Ok [] /\
  main render fs = Raise ZeroDivisionError.
Proof.
  intros Hi Hr Hall.
  assert (Hf : filter (fun i => epoch_floor <? Issue.created i) issues = []).
  { clear Hi. induction Hall as [|i tl Hle _ IH]; [reflexivity |].
    simpl. destruct (Z.ltb_spec epoch_floor (Issue.created i)) as [L|_];
      [unfold epoch_floor in L; lia | exact IH]. }
  assert (L : load_data fs "data/issues.csv" "data/resolutions.csv" = Ok []).
  { unfold load_data, read_csv. rewrite Hi, Hr. simpl. rewrite Hf. reflexivity. }
  split; [exact L |].
  unfold main. rewrite L. reflexivity.
Qed.

Lemma main_empty_cleaned_table_witness :
  load_data (fs_with issues_all_sentinels)
    "data/issues.csv" "data/resolutions.csv" = Ok [] /\
  main render_ok (fs_with issues_all_sentinels) = Raise ZeroDivisionError.
Proof.
  apply (main_empty_cleaned_table render_ok (fs_with issues_all_sentinels)
           issues_all_sentinels lookup_sample eq_refl eq_refl).
  repeat constructor; vm_compute; discriminate.
Defined.

(** X20. Once [load_data] has returned a table with rows, [main] does not
    raise: it returns [True] when both rendering passes succeed and
    [False] as soon as one of them raises, whatever the exception. *)
Theorem main_returns_on_loaded_table
    (render : DataFrame -> string -> list string -> bool -> result unit)
    (fs : filesystem) (df : DataFrame) :
  load_data fs "data/issues.csv" "data/resolutions.csv" = Ok df ->
  df <> [] ->
  exists b, main render fs = Ok b /\
    (b = true <->
     render df "outputs/visualizations"%string ["png"%string] true = Ok tt /\
     render df "outputs/visualizations"%string ["pdf"%string] false = Ok tt).
Proof.
  intros L Hdf. unfold main. rewrite L.
  destruct (calculate_metrics_time_fields df Hdf) as (m & -> & _).
  rewrite get_metrics_by_category_ok.
  unfold ensure_output_dir. cbn [bind].
  destruct (render df "outputs/visualizations"%string ["png"%string] true)
    as [[]|e1]; cbn [bind].
  - destruct (render df "outputs/visualizations"%string ["pdf"%string] false)
      as [[]|e2].
    + exists true. split; [reflexivity |]. split; [intros _; split; reflexivity |].
      intros _. reflexivity.
    + exists false. split; [reflexivity |].
      split; [intros F; discriminate F | intros [_ F]; discriminate F].
  - exists false. split; [reflexivity |].
    split; [intros F; discriminate F | intros [F _]; discriminate F].
Qed.

Lemma main_returns_on_loaded_table_witness :
  exists b, main render_ok (fs_with issues_with_sentinels) = Ok b /\
    (b = true <->
     render_ok (loaded issues_with_sentinels)
       "outputs/visualizations"%string ["png"%string] true = Ok tt /\
     render_ok (loaded issues_with_sentinels)
       "outputs/visualizations"%string ["pdf"%string] false = Ok tt).
Proof.
  apply (main_returns_on_loaded_table render_ok (fs_with issues_with_sentinels)
           (loaded issues_with_sentinels)).
  - vm_compute. reflexivity.
  - vm_compute. discriminate.
Defined.

(** X21. [analyze_single_category] fails only where the loader or the
    chart step fails: an exception it raises is the one [load_data] raised,
    or one raised by the chart step on a non-empty table of that category.
    Its own call of [calculate_metrics] never raises. *)
Theorem analyze_single_category_failures
    (chart : DataFrame -> string -> string -> result unit)
    (fs : filesystem) (category_name output_dir : string) (e : exn) :
  analyze_single_category chart fs category_name output_dir = Raise e ->
  load_data fs "data/issues.csv" "data/resolutions.csv" = Raise e \/
  exists df,
    load_data fs "data/issues.csv" "data/resolutions.csv" = Ok df /\
    in_category category_name df <> [] /\
    chart (in_category category_name df) category_name output_dir = Raise e.
Proof.
  unfold analyze_single_category. intros H.
  destruct (load_data fs "data/issues.csv" "data/resolutions.csv") as [df|e0];
    cbn [bind] in H; [| left; injection H as ->; reflexivity].
  right. exists df. split; [reflexivity |].
  fold (in_category category_name df) in H.
  destruct (Z.eqb_spec (len (in_category category_name df)) 0) as [Z|NZ];
    [discriminate H |].
  assert (Hne : in_category category_name df <> []).
  { intros E. apply NZ. rewrite E. reflexivity. }
  split; [exact Hne |].
  destruct (calculate_metrics_time_fields _ Hne) as (m & Hm & _).
  rewrite Hm in H. exact H.
Qed.

Lemma analyze_single_category_failures_witness :
  load_data fs_empty "data/issues.csv" "data/resolutions.csv"
    = Raise FileNotFoundError \/
  exists df,
    load_data fs_empty "data/issues.csv" "data/resolutions.csv" = Ok df /\
    in_category "Bug" df <> [] /\
    (fun _ _ _ => Ok tt) (in_category "Bug" df) "Bug"%string "out"%string
      = Raise FileNotFoundError.
Proof.
  apply (analyze_single_category_failures (fun _ _ _ => Ok tt) fs_empty
           "Bug" "out" FileNotFoundError).
  reflexivity.
Defined.

(** X22. A category that no row of the loaded table carries is reported
    and skipped: [analyze_single_category] returns without computing
    metrics or touching the chart step. *)
Theorem analyze_single_category_unknown
    (chart : DataFrame -> string -> string -> result unit)
    (fs : filesystem) (category_name output_dir : string) (df : DataFrame) :
  load_data fs "data/issues.csv" "data/resolutions.csv" = Ok df ->
  ~ In category_name (map Row.category df) ->
  analyze_single_category chart fs category_name output_dir = Ok tt.
Proof.
  intros L Hnot. unfold analyze_single_category. rewrite L. cbn [bind].
  fold (in_category category_name df).
  assert (E : in_category category_name df = []).
  { destruct (in_category category_name df) as [|r tl] eqn:F; [reflexivity |].
    exfalso. apply Hnot.
    assert (Hr : In r (in_category category_name df)) by (rewrite F; now left).
    unfold in_category in Hr. apply filter_In in Hr. destruct Hr as [Hr Hc].
    apply String.eqb_eq in Hc. rewrite <- Hc. apply in_map. exact Hr. }
  rewrite E. reflexivity.
Qed.

Lemma analyze_single_category_unknown_witness :
  analyze_single_category (fun _ _ _ => Raise OtherException)
    (fs_with issues_with_sentinels) "Epic" "out" = Ok tt.
Proof.
  apply (analyze_single_category_unknown (fun _ _ _ => Raise OtherException)
           (fs_with issues_with_sentinels) "Epic" "out"
           (loaded issues_with_sentinels)).
  - vm_compute. reflexivity.
  - vm_compute. intuition discriminate.
Defined.

(** ** The share column of the category report *)




